(** * downloader2.0: the Flask download handler of [app.py]

    A shallow embedding of [cleanup_path] and of the [/download] request
    handler.  Python text is a list of code points, a [Path] is its list of
    components relative to the process directory, the filesystem is an
    ordered table of entries (directory order is the order [glob] yields),
    and effectful code runs in a state-and-exception monad over a [world]
    that carries the filesystem, a clock, the UUID draw counter and a
    timestamped log of the calls made to the outside (flash, mkdir, the
    extraction tool, thread starts, send_file, removals).

    What the model takes from the libraries the source calls:
    - every exception is an instance of [Exception], so that
      [except Exception] and the bare [except:] catch the same things;
    - [time.sleep] keeps the delay in nanoseconds in a signed 64-bit
      integer: an [int] that does not fit raises [OverflowError], a
      negative one [ValueError];
    - [exists], [is_file], [stat] and [glob] read the table and do not
      raise: the process may look at every entry of the table.  The one
      call of [exists] that stands outside a [try], in [cleanup_path], is
      given with its failures ([cleanup_path_under]); [cleanup_path] is
      the function when that test does not fail;
    - [unlink], [rmdir] and [mkdir] fail as the system calls do on what the
      table shows (a missing entry, a taken name, a parent that is not a
      directory, a directory that is not empty), and an entry marked
      [immutable] refuses to be removed.  Failures the table does not show
      (permissions, a read-only filesystem) are not modelled: what is
      stated of the handler takes the outcome of its [mkdir] as it comes,
      returned or raised;
    - of the steps of the handler only the extraction tool takes time on
      the clock, as long as the environment says;
    - [sorted] is stable, also with [reverse=True];
    - the extraction tool is an oracle: it returns or raises, and leaves
      any filesystem it likes;
    - [send_file] opens the file it is given, relative to the application
      directory, which is taken to be the process directory: it raises on
      a directory and on a missing file;
    - starting a thread is recorded in the log; what the thread then does
      is [cleanup_path], run on the world the thread finds. *)

From Stdlib Require Import List ZArith NArith Bool String Ascii Lia.
From Stdlib Require Import Sorted Permutation.
Import ListNotations.
Local Open Scope Z_scope.
Set Warnings "-register-all".

(** ** Python text *)

Definition pystr := list N.

(** A source literal, as the list of its code points. *)
Definition py (s : string) : pystr :=
  map N_of_ascii (list_ascii_of_string s).

Fixpoint pystr_eqb (a b : pystr) : bool :=
  match a, b with
  | [], [] => true
  | x :: a', y :: b' => N.eqb x y && pystr_eqb a' b'
  | _, _ => false
  end.

(** [str.isspace] on one code point: the characters [str.strip()] removes. *)
Definition isspace (c : N) : bool :=
  ((9 <=? c) && (c <=? 13) || (28 <=? c) && (c <=? 32)
   || (c =? 133) || (c =? 160) || (c =? 5760)
   || (8192 <=? c) && (c <=? 8202)
   || (c =? 8232) || (c =? 8233) || (c =? 8239) || (c =? 8287)
   || (c =? 12288))%N.

Fixpoint lstrip (s : pystr) : pystr :=
  match s with
  | c :: s' => if isspace c then lstrip s' else s
  | [] => []
  end.

Definition rstrip (s : pystr) : pystr := rev (lstrip (rev s)).

(** [s.strip()] *)
Definition strip (s : pystr) : pystr := rstrip (lstrip s).

(** [s.startswith(p)] *)
Fixpoint startswith (s p : pystr) : bool :=
  match p, s with
  | [], _ => true
  | x :: p', y :: s' => N.eqb x y && startswith s' p'
  | _ :: _, [] => false
  end.

(** [sep.join(parts)] *)
Fixpoint join (sep : pystr) (parts : list pystr) : pystr :=
  match parts with
  | [] => []
  | [a] => a
  | a :: rest => a ++ sep ++ join sep rest
  end.

(** ** Paths *)

Definition path := list pystr.

Fixpoint path_eqb (p q : path) : bool :=
  match p, q with
  | [], [] => true
  | a :: p', b :: q' => pystr_eqb a b && path_eqb p' q'
  | _, _ => false
  end.

(** [p / name] for a single component [name]. *)
Definition path_div (p : path) (name : pystr) : path := p ++ [name].

(** [str(p)] *)
Definition path_str (p : path) : pystr := join (py "/") p.

(** [p.name] *)
Definition path_name (p : path) : pystr := last p [].

(** [p.parent] *)
Definition path_parent (p : path) : path := removelast p.

(** [q] is [p] or lies below it. *)
Fixpoint path_under (p q : path) : bool :=
  match p, q with
  | [], _ => true
  | a :: p', b :: q' => pystr_eqb a b && path_under p' q'
  | _ :: _, [] => false
  end.

(** [BASE_TEMP = Path("./downloads_temp")] *)
Definition BASE_TEMP : path := [py "downloads_temp"].

(** ** The filesystem *)

Inductive ftype := Regular | Directory | Dangling.

(** An entry: what it is, its [st_size], and whether removing it is refused
    by the system (removal then raises [PermissionError]).  [Dangling] is a
    link whose target is gone: [glob] lists it, [exists()] is false. *)
Record inode := { i_type : ftype; st_size : Z; immutable : bool }.

Definition fs := list (path * inode).

Fixpoint lookup (p : path) (s : fs) : option inode :=
  match s with
  | [] => None
  | (q, i) :: s' => if path_eqb q p then Some i else lookup p s'
  end.

Definition is_type (t : ftype) (i : inode) : bool :=
  match t, i_type i with
  | Regular, Regular | Directory, Directory | Dangling, Dangling => true
  | _, _ => false
  end.

Arguments is_type : simpl never.

(** [p.exists()] *)
Definition path_exists (p : path) (s : fs) : bool :=
  match lookup p s with
  | Some i => negb (is_type Dangling i)
  | None => false
  end.

(** [p.is_file()] *)
Definition is_file (p : path) (s : fs) : bool :=
  match lookup p s with Some i => is_type Regular i | None => false end.

(** [p.is_dir()] *)
Definition is_dir (p : path) (s : fs) : bool :=
  match lookup p s with Some i => is_type Directory i | None => false end.

(** [p.stat().st_size], asked only of a path that exists. *)
Definition stat_size (p : path) (s : fs) : Z :=
  match lookup p s with Some i => st_size i | None => 0 end.

Definition is_child (d p : path) : bool :=
  match p with
  | [] => false
  | _ :: _ => path_eqb (path_parent p) d
  end.

(** [d.glob("*")]: every entry directly inside [d], in directory order. *)
Definition glob_star (d : path) (s : fs) : list path :=
  map fst (filter (fun e => is_child d (fst e)) s).

Definition drop_entry (p : path) (s : fs) : fs :=
  filter (fun e => negb (path_eqb (fst e) p)) s.

(** Size reported for a directory made by [mkdir]. *)
Definition new_dir : inode :=
  {| i_type := Directory; st_size := 4096; immutable := false |}.

(** The longest path in the table: no entry lies deeper. *)
Definition height (s : fs) : nat :=
  fold_right (fun e h => Nat.max (List.length (fst e)) h) 0%nat s.

(** ** Python values: the options dictionary *)

(** A [dict] literal is kept as its items in source order. *)
Inductive pyval :=
| PNone
| PBool (b : bool)
| PInt (n : Z)
| PStr (s : pystr)
| PList (items : list pyval)
| PDict (items : list (pystr * pyval)).

(** [d[key]] / [d.get(key)] on the items of a dict. *)
Fixpoint dict_get (key : pystr) (items : list (pystr * pyval)) : option pyval :=
  match items with
  | [] => None
  | (k, v) :: rest => if pystr_eqb k key then Some v else dict_get key rest
  end.

(** ** Exceptions, the world, and the monad *)

(** A raised [Exception] instance: its class name and [str(e)]. *)
Record exn := { exc_class : pystr; exc_str : pystr }.

Definition OSError_of (cls msg : string) (p : path) : exn :=
  {| exc_class := py cls;
     exc_str := py msg ++ py ": '" ++ path_str p ++ py "'" |}.

Arguments OSError_of : simpl never.

Inductive event :=
| EvFlash (message : pystr)
| EvMkdir (p : path)
| EvExtract (ydl_opts : pyval) (url : pystr)
| EvThread (target_arg : path) (wait_seconds : Z)
| EvSendFile (file : pystr) (download_name : pystr)
| EvRemove (p : path).

Record world := {
  files : fs;
  clock : Z;
  uuid_count : nat;
  log : list (Z * event)
}.

Definition set_files (s : fs) (w : world) : world :=
  {| files := s; clock := clock w; uuid_count := uuid_count w; log := log w |}.

Definition emit (e : event) (w : world) : world :=
  {| files := files w; clock := clock w; uuid_count := uuid_count w;
     log := log w ++ [(clock w, e)] |}.

Inductive outcome (A : Type) :=
| Ok (a : A)
| Raise (e : exn).
Arguments Ok {A} a.
Arguments Raise {A} e.

Definition M (A : Type) : Type := world -> outcome A * world.

Definition ret {A} (a : A) : M A := fun w => (Ok a, w).

Definition raise {A} (e : exn) : M A := fun w => (Raise e, w).

Definition bind {A B} (m : M A) (k : A -> M B) : M B :=
  fun w =>
    match m w with
    | (Ok a, w') => k a w'
    | (Raise e, w') => (Raise e, w')
    end.

(** [try: body  except Exception as e: handler(e)].  Every exception of the
    model is an [Exception] instance, so the bare [except:] of
    [cleanup_path] is the same combinator. *)
Definition try_except {A} (body : M A) (handler : exn -> M A) : M A :=
  fun w =>
    match body w with
    | (Ok a, w') => (Ok a, w')
    | (Raise e, w') => handler e w'
    end.

Declare Scope py_scope.
Delimit Scope py_scope with py.
Notation "x <- m ;; k" := (bind m (fun x => k))
  (at level 61, m at next level, right associativity) : py_scope.
Notation "m ;; k" := (bind m (fun _ => k))
  (at level 61, right associativity) : py_scope.
Local Open Scope py_scope.

Definition get_files : M fs := fun w => (Ok (files w), w).

Definition tell (e : event) : M unit := fun w => (Ok tt, emit e w).

(** [for x in xs: body(x)] *)
Fixpoint for_each {A} (xs : list A) (body : A -> M unit) : M unit :=
  match xs with
  | [] => ret tt
  | x :: rest => body x ;; for_each rest body
  end.

(** ** System calls *)

(** The longest delay [time.sleep] takes, in seconds: the delay is held in
    nanoseconds in a signed 64-bit integer. *)
Definition sleep_max : Z := 9223372036.

(** [time.sleep(secs)] for an [int]: a delay that does not fit raises
    [OverflowError], whatever its sign; one that fits and is negative raises
    [ValueError]. *)
Definition sleep (secs : Z) : M unit :=
  fun w =>
    if (secs <? - sleep_max) || (sleep_max <? secs)
    then (Raise {| exc_class := py "OverflowError";
                   exc_str := py "timestamp too large to convert to C _PyTime_t" |},
          w)
    else if secs <? 0
    then (Raise {| exc_class := py "ValueError";
                   exc_str := py "sleep length must be non-negative" |}, w)
    else (Ok tt, {| files := files w; clock := clock w + secs;
                    uuid_count := uuid_count w; log := log w |}).

(** [p.unlink()] *)
Definition unlink (p : path) : M unit :=
  fun w =>
    match lookup p (files w) with
    | None =>
        (Raise (OSError_of "FileNotFoundError" "[Errno 2] No such file or directory" p), w)
    | Some i =>
        if is_type Directory i
        then (Raise (OSError_of "IsADirectoryError" "[Errno 21] Is a directory" p), w)
        else if immutable i
        then (Raise (OSError_of "PermissionError" "[Errno 1] Operation not permitted" p), w)
        else (Ok tt, emit (EvRemove p) (set_files (drop_entry p (files w)) w))
    end.

(** [os.rmdir(p)] *)
Definition rmdir (p : path) : M unit :=
  fun w =>
    match lookup p (files w) with
    | None =>
        (Raise (OSError_of "FileNotFoundError" "[Errno 2] No such file or directory" p), w)
    | Some i =>
        if negb (is_type Directory i)
        then (Raise (OSError_of "NotADirectoryError" "[Errno 20] Not a directory" p), w)
        else match glob_star p (files w) with
        | _ :: _ =>
            (Raise (OSError_of "OSError" "[Errno 39] Directory not empty" p), w)
        | [] =>
            if immutable i
            then (Raise (OSError_of "PermissionError" "[Errno 1] Operation not permitted" p), w)
            else (Ok tt, emit (EvRemove p) (set_files (drop_entry p (files w)) w))
        end
    end.

(** The walk of [shutil.rmtree]: the entries of [p] as listed on entry, each
    subdirectory emptied and removed in turn, every other entry unlinked,
    then [p] itself; the first error stops the walk and is raised.  [depth]
    bounds the levels descended; [rmtree] passes the length of the longest
    path of the table, below which no entry lies ([rmtree_ok]). *)
Fixpoint rmtree_walk (depth : nat) (p : path) : M unit :=
  match depth with
  | O => rmdir p
  | S d =>
      entries <- (fun w => (Ok (glob_star p (files w)), w)) ;;
      for_each entries
        (fun c => s <- get_files ;;
                  if is_dir c s then rmtree_walk d c else unlink c) ;;
      rmdir p
  end.

(** [shutil.rmtree(p)] *)
Definition rmtree (p : path) : M unit :=
  fun w =>
    match lookup p (files w) with
    | None =>
        (Raise (OSError_of "FileNotFoundError" "[Errno 2] No such file or directory" p), w)
    | Some i =>
        if negb (is_type Directory i)
        then (Raise (OSError_of "NotADirectoryError" "[Errno 20] Not a directory" p), w)
        else rmtree_walk (height (files w)) p w
    end.

(** ** [cleanup_path] *)

(** The guarded body of [cleanup_path]: the statements under [try:]. *)
Definition remove_path (p : path) : M unit :=
  s <- get_files ;;
  if is_file p s then unlink p else rmtree p.

(** [path.exists()] lets through every error of [stat] other than the path
    being absent: a directory on the way that the process may not search
    makes it raise [PermissionError].  The table does not say which
    directories may be searched, so the failures of the test are given
    apart: [Some e] makes the test of that path raise [e]. *)
Definition stat_fault : Type := path -> fs -> option exn.

Definition exists_call (fault : stat_fault) (p : path) : M bool :=
  fun w =>
    match fault p (files w) with
    | Some e => (Raise e, w)
    | None => (Ok (path_exists p (files w)), w)
    end.

(** [def cleanup_path(path, wait_seconds=30)], the failures of its
    existence test given by [fault]. *)
Definition cleanup_path_under (fault : stat_fault) (p : path)
    (wait_seconds : Z) : M unit :=
  sleep wait_seconds ;;
  found <- exists_call fault p ;;
  if found
  then try_except (remove_path p) (fun _ => ret tt)
  else ret tt.

Definition no_fault : stat_fault := fun _ _ => None.

(** [cleanup_path] where the existence test does not fail. *)
Definition cleanup_path (p : path) (wait_seconds : Z) : M unit :=
  cleanup_path_under no_fault p wait_seconds.

(** ** [Path.mkdir] *)

Definition has_class (cls : string) (e : exn) : bool :=
  pystr_eqb (exc_class e) (py cls).

(** [os.mkdir(p)].  The empty path is the process directory, which exists. *)
Definition os_mkdir (p : path) : M unit :=
  fun w =>
    let parent_state :=
      match path_parent p with
      | [] => Some Directory
      | _ :: _ => option_map i_type (lookup (path_parent p) (files w))
      end in
    match p, lookup p (files w) with
    | [], _ | _, Some _ =>
        (Raise (OSError_of "FileExistsError" "[Errno 17] File exists" p), w)
    | _, None =>
        match parent_state with
        | Some Directory =>
            (Ok tt, emit (EvMkdir p) (set_files (files w ++ [(p, new_dir)]) w))
        | Some Regular =>
            (Raise (OSError_of "NotADirectoryError" "[Errno 20] Not a directory" p), w)
        | Some Dangling | None =>
            (Raise (OSError_of "FileNotFoundError" "[Errno 2] No such file or directory" p), w)
        end
    end.

(** What [Path.mkdir] does with an [OSError] that is not handled by creating
    the parents: tolerated only with [exist_ok] on an existing directory. *)
Definition mkdir_tolerate (p : path) (exist_ok : bool) (e : exn) : M unit :=
  s <- get_files ;;
  if negb exist_ok || negb (match p with [] => true | _ => is_dir p s end)
  then raise e else ret tt.

(** [p.mkdir(parents=parents, exist_ok=exist_ok)]; [n] bounds the chain of
    parents and is the length of [p] at the call. *)
Fixpoint mkdir_from (n : nat) (p : path) (parents exist_ok : bool) : M unit :=
  try_except (os_mkdir p)
    (fun e =>
       if has_class "FileNotFoundError" e
       then match n, p with
            | S n', _ :: _ =>
                if parents
                then mkdir_from n' (path_parent p) true true ;;
                     try_except (os_mkdir p)
                       (fun e' => if has_class "FileNotFoundError" e'
                                  then raise e'
                                  else mkdir_tolerate p exist_ok e')
                else raise e
            | _, _ => raise e
            end
       else mkdir_tolerate p exist_ok e).

Definition mkdir (p : path) (parents exist_ok : bool) : M unit :=
  mkdir_from (List.length p) p parents exist_ok.

(** ** The outside of the handler *)

(** What the process does not decide: the values [uuid.uuid4().hex] yields,
    draw by draw, and the extraction tool, which reads its options and the
    URL and leaves the filesystem as it pleases, returning or raising, after
    as many seconds as it takes. *)
Record env := {
  uuid4_hex : nat -> pystr;
  extract_info : pyval -> pystr -> fs -> outcome unit * fs;
  extract_seconds : pyval -> pystr -> fs -> N
}.

Inductive response :=
| Redirect (location : pystr)
| Attachment (file : pystr) (download_name : pystr).

(** [url_for(endpoint)] for the two routes of the application. *)
Definition url_for (endpoint : string) : pystr :=
  if String.eqb endpoint "index" then py "/"
  else if String.eqb endpoint "download" then py "/download"
  else [].

Definition redirect (location : pystr) : response := Redirect location.

Definition flash (message : pystr) : M unit := tell (EvFlash message).

(** [uuid.uuid4().hex] *)
Definition uuid4 (E : env) : M pystr :=
  fun w =>
    (Ok (uuid4_hex E (uuid_count w)),
     {| files := files w; clock := clock w;
        uuid_count := S (uuid_count w); log := log w |}).

(** [with yt_dlp.YoutubeDL(ydl_opts) as ydl: ydl.extract_info(url, download=True)] *)
Definition YoutubeDL (E : env) (ydl_opts : pyval) (url : pystr) : M unit :=
  fun w =>
    let w1 := emit (EvExtract ydl_opts url) w in
    let (r, s) := extract_info E ydl_opts url (files w1) in
    (r, {| files := s;
           clock := clock w1 + Z.of_N (extract_seconds E ydl_opts url (files w1));
           uuid_count := uuid_count w1; log := log w1 |}).

(** [threading.Thread(target=cleanup_path, args=(p, secs), daemon=True).start()] *)
Definition start_cleanup (p : path) (secs : Z) : M unit :=
  tell (EvThread p secs).

(** [send_file(str(p), as_attachment=True, download_name=name)]: Flask
    resolves the relative name from the application directory, taken to be
    the process directory, and opens it; a directory or a missing file
    raises. *)
Definition send_file (p : path) (name : pystr) : M response :=
  tell (EvSendFile (path_str p) name) ;;
  s <- get_files ;;
  if is_file p s then ret (Attachment (path_str p) name)
  else if path_exists p s
  then raise (OSError_of "IsADirectoryError" "[Errno 21] Is a directory" p)
  else raise (OSError_of "FileNotFoundError" "[Errno 2] No such file or directory" p).

(** ** [sorted(..., key=..., reverse=True)] *)

(** The sort key of the handler:
    [lambda p: p.stat().st_size if p.exists() else 0]. *)
Definition size_key (s : fs) (p : path) : Z :=
  if path_exists p s then stat_size p s else 0.

Section Sorted.
Context {A : Type} (key : A -> Z).

(** Put [x] in front of the first element whose key is not larger. *)
Fixpoint insert_desc (x : A) (l : list A) : list A :=
  match l with
  | [] => [x]
  | y :: l' => if key x <? key y then y :: insert_desc x l' else x :: l
  end.

(** [sorted(l, key=key, reverse=True)]: decreasing keys, equal keys in
    their original order. *)
Definition sorted_reverse (l : list A) : list A :=
  fold_right insert_desc [] l.

(** Keys never increase from [a] to [b]. *)
Definition desc (a b : A) : Prop := key b <= key a.
End Sorted.

(** ** The request *)

(** [request.form], as the submitted fields in order. *)
Definition form := list (pystr * pystr).

(** [request.form.get(key)] *)
Fixpoint form_get (key : pystr) (f : form) : option pystr :=
  match f with
  | [] => None
  | (k, v) :: rest => if pystr_eqb k key then Some v else form_get key rest
  end.

(** [x or ""] for [x] a string or [None]. *)
Definition or_empty (x : option pystr) : pystr :=
  match x with Some (c :: s) => c :: s | _ => [] end.

Definition audio_opts (outtmpl : pystr) : pyval :=
  PDict [ (py "format", PStr (py "bestaudio/best"));
          (py "outtmpl", PStr outtmpl);
          (py "noplaylist", PBool true);
          (py "quiet", PBool true);
          (py "concurrent_fragment_downloads", PInt 5);
          (py "postprocessors",
             PList [ PDict [ (py "key", PStr (py "FFmpegExtractAudio"));
                             (py "preferredcodec", PStr (py "mp3"));
                             (py "preferredquality", PStr (py "128")) ] ]);
          (py "prefer_ffmpeg", PBool true) ].

Definition video_opts (outtmpl : pystr) : pyval :=
  PDict [ (py "format", PStr (py "best[ext=mp4]/best"));
          (py "outtmpl", PStr outtmpl);
          (py "noplaylist", PBool true);
          (py "quiet", PBool true);
          (py "concurrent_fragment_downloads", PInt 5);
          (py "merge_output_format", PNone);
          (py "prefer_ffmpeg", PBool true) ].

(** The test of line 85:
    [not url or not (url.startswith("http://") or url.startswith("https://"))]. *)
Definition url_rejected (url : pystr) : bool :=
  match url with
  | [] => true
  | _ => negb (startswith url (py "http://") || startswith url (py "https://"))
  end.

Definition form_url (f : form) : pystr := strip (or_empty (form_get (py "url") f)).

Definition form_kind (f : form) : pystr :=
  match form_get (py "kind") f with Some k => k | None => py "video" end.

(** Lines 95 to 120: the output template and the options built from it. *)
Definition outtmpl_of (workdir : path) : pystr :=
  path_str (path_div workdir (py "%(title).100s.%(ext)s")).

Definition ydl_opts_of (kind : pystr) (workdir : path) : pyval :=
  let outtmpl := outtmpl_of workdir in
  if pystr_eqb kind (py "audio") then audio_opts outtmpl else video_opts outtmpl.

(** The statements under [try:] in [download]. *)
Definition download_body (E : env) (url kind : pystr) (workdir : path) : M response :=
  let ydl_opts := ydl_opts_of kind workdir in
  YoutubeDL E ydl_opts url ;;
  s <- get_files ;;
  match sorted_reverse (size_key s) (glob_star workdir s) with
  | [] =>
      flash (py "Download completed but file not found.") ;;
      start_cleanup workdir 5 ;;
      ret (redirect (url_for "index"))
  | outfile :: _ =>
      start_cleanup workdir 30 ;;
      send_file outfile (path_name outfile)
  end.

(** The [except Exception as e:] clause of [download]. *)
Definition on_error (workdir : path) (e : exn) : M response :=
  flash (py "Error: " ++ exc_str e) ;;
  start_cleanup workdir 5 ;;
  ret (redirect (url_for "index")).

(** [def download()] *)
Definition download (E : env) (f : form) : M response :=
  let url := form_url f in
  let kind := form_kind f in
  if url_rejected url
  then flash (py "Please enter a valid URL") ;;
       ret (redirect (url_for "index"))
  else
    uid <- uuid4 E ;;
    let workdir := path_div BASE_TEMP uid in
    mkdir workdir true true ;;
    try_except (download_body E url kind workdir) (on_error workdir).

(** The module body run at import: [BASE_TEMP.mkdir(exist_ok=True)]. *)
Definition startup : M unit := mkdir BASE_TEMP false true.

(** ** Reading the log *)

(** What a run appended to the log of the world it started from. *)
Definition events_since (w w' : world) : list (Z * event) :=
  skipn (List.length (log w)) (log w').

(** The cleanup threads started, as [(path, wait_seconds)], in order. *)
Fixpoint scheduled (l : list (Z * event)) : list (path * Z) :=
  match l with
  | [] => []
  | (_, EvThread p d) :: l' => (p, d) :: scheduled l'
  | _ :: l' => scheduled l'
  end.

(** The messages flashed, in order. *)
Fixpoint flashed (l : list (Z * event)) : list pystr :=
  match l with
  | [] => []
  | (_, EvFlash m) :: l' => m :: flashed l'
  | _ :: l' => flashed l'
  end.

(** The calls of the extraction tool, as [(options, url)], in order. *)
Fixpoint extractions (l : list (Z * event)) : list (pyval * pystr) :=
  match l with
  | [] => []
  | (_, EvExtract o u) :: l' => (o, u) :: extractions l'
  | _ :: l' => extractions l'
  end.

(** The files handed to [send_file], in order. *)
Fixpoint served (l : list (Z * event)) : list (pystr * pystr) :=
  match l with
  | [] => []
  | (_, EvSendFile f n) :: l' => (f, n) :: served l'
  | _ :: l' => served l'
  end.

(** The times at which entries were removed. *)
Fixpoint removal_times (l : list (Z * event)) : list Z :=
  match l with
  | [] => []
  | (t, EvRemove _) :: l' => t :: removal_times l'
  | _ :: l' => removal_times l'
  end.

(** The directories created, in order. *)
Fixpoint made_dirs (l : list (Z * event)) : list path :=
  match l with
  | [] => []
  | (_, EvMkdir p) :: l' => p :: made_dirs l'
  | _ :: l' => made_dirs l'
  end.

(** [opts[key]] on an options object. *)
Definition opt_get (key : string) (o : pyval) : option pyval :=
  match o with PDict items => dict_get (py key) items | _ => None end.

(** The work directory a request gets in world [w]. *)
Definition workdir_of (E : env) (w : world) : path :=
  path_div BASE_TEMP (uuid4_hex E (uuid_count w)).

(** ** Well-formed tables and recursive removal *)

(** Keep the entries whose path satisfies [g]. *)
Definition keep (g : path -> bool) (s : fs) : fs :=
  filter (fun e => g (fst e)) s.

(** The table without [p] and everything below it. *)
Definition prune (p : path) (s : fs) : fs :=
  keep (fun q => negb (path_under p q)) s.

(** A table that is a tree: no path twice, none empty, and every entry
    inside a directory of the table unless it sits at the top. *)
Definition wf_fs (s : fs) : Prop :=
  NoDup (map fst s) /\
  forall q i, In (q, i) s ->
    q <> [] /\ (path_parent q <> [] -> is_dir (path_parent q) s = true).

(** Nothing at or below [p] refuses to be removed. *)
Definition removable (p : path) (s : fs) : Prop :=
  forall q i, In (q, i) s -> path_under p q = true -> immutable i = false.

(** Whether [q] is at or below one of [cs]. *)
Definition under_any (cs : list path) (q : path) : bool :=
  existsb (fun c => path_under c q) cs.

(** No entry at or below [c] lies more than [d] levels below it. *)
Definition within (d : nat) (c : path) (s : fs) : Prop :=
  forall q i, In (q, i) s -> path_under c q = true ->
    (List.length q <= List.length c + d)%nat.

(** What [rmtree_walk] does with one entry of the directory it empties. *)
Definition walk_entry (d : nat) (c : path) : M unit :=
  bind get_files (fun s => if is_dir c s then rmtree_walk d c else unlink c).

(** ** Vocabulary of the statements *)

(** A step that leaves the clock and the UUID counter alone and logs
    nothing but removals, all stamped with the time [t] it ran at. *)
Definition removes_at (t : Z) (w w' : world) : Prop :=
  clock w = t /\ clock w' = t /\ uuid_count w' = uuid_count w /\
  exists evs, log w' = log w ++ evs /\
    Forall (fun te => fst te = t /\ exists q, snd te = EvRemove q) evs.

(** A step that only creates directories. *)
Definition mkdirs_only (w w' : world) : Prop :=
  clock w' = clock w /\ uuid_count w' = uuid_count w /\
  exists evs, log w' = log w ++ evs /\
    Forall (fun te => fst te = clock w /\ exists q, snd te = EvMkdir q) evs.

(** The world in which the extraction tool ends, called in [w2]: the
    filesystem [s3] it leaves, the call logged at the time it was made, and
    the clock moved on by the time the tool took. *)
Definition after_tool (E : env) (opts : pyval) (url : pystr) (w2 : world)
    (s3 : fs) : world :=
  {| files := s3;
     clock := clock w2 + Z.of_N (extract_seconds E opts url (files w2));
     uuid_count := uuid_count w2;
     log := log w2 ++ [(clock w2, EvExtract opts url)] |}.

(** The seconds the extraction tool takes in the run of request [f] from
    [w], called in [w2]. *)
Definition tool_seconds (E : env) (f : form) (w w2 : world) : Z :=
  Z.of_N (extract_seconds E (ydl_opts_of (form_kind f) (workdir_of E w))
            (form_url f) (files w2)).

(** The world a run leaves at time [t]: the filesystem [s], one more UUID
    drawn, and [evs] appended to the log. *)
Definition after_run (w : world) (t : Z) (s : fs) (evs : list (Z * event))
    : world :=
  {| files := s; clock := t; uuid_count := S (uuid_count w);
     log := log w ++ evs |}.

(** What the run logs once the work directory exists, by the outcome [r3]
    of the extraction tool and the filesystem [s3] it leaves: the call of
    the tool at time [t0], and what follows at the time [t] it ends. *)
Definition run_events (t0 t : Z) (opts : pyval) (url : pystr) (wd : path)
    (r3 : outcome unit) (s3 : fs) : list (Z * event) :=
  (t0, EvExtract opts url) ::
  match r3 with
  | Raise e => [(t, EvFlash (py "Error: " ++ exc_str e)); (t, EvThread wd 5)]
  | Ok _ =>
      match sorted_reverse (size_key s3) (glob_star wd s3) with
      | [] => [(t, EvFlash (py "Download completed but file not found."));
               (t, EvThread wd 5)]
      | outfile :: _ =>
          (t, EvThread wd 30) ::
          (t, EvSendFile (path_str outfile) (path_name outfile)) ::
          (if is_file outfile s3 then []
           else if path_exists outfile s3
           then [(t, EvFlash (py "Error: " ++ exc_str
                     (OSError_of "IsADirectoryError" "[Errno 21] Is a directory"
                        outfile)));
                 (t, EvThread wd 5)]
           else [(t, EvFlash (py "Error: " ++ exc_str
                     (OSError_of "FileNotFoundError"
                        "[Errno 2] No such file or directory" outfile)));
                 (t, EvThread wd 5)])
      end
  end.

(** The response of such a run. *)
Definition run_response (wd : path) (r3 : outcome unit) (s3 : fs) : response :=
  match r3 with
  | Raise _ => Redirect (url_for "index")
  | Ok _ =>
      match sorted_reverse (size_key s3) (glob_star wd s3) with
      | [] => Redirect (url_for "index")
      | outfile :: _ =>
          if is_file outfile s3
          then Attachment (path_str outfile) (path_name outfile)
          else Redirect (url_for "index")
      end
  end.


(** The table [s'] has nothing that [s] has not, and agrees with [s] on
    every path that is not at or below [p]. *)
Definition shrinks_below (p : path) (s s' : fs) : Prop :=
  (forall q i, In (q, i) s' -> In (q, i) s) /\
  (forall q, path_under p q = false -> lookup q s' = lookup q s).

(** ** Checking a table by computation *)

Fixpoint nodup_paths (l : list path) : bool :=
  match l with
  | [] => true
  | p :: l' => negb (existsb (path_eqb p) l') && nodup_paths l'
  end.

(** [wf_fs], decided. *)
Definition wf_fsb (s : fs) : bool :=
  nodup_paths (map fst s) &&
  forallb (fun e =>
             match fst e with
             | [] => false
             | _ :: _ =>
                 match path_parent (fst e) with
                 | [] => true
                 | _ :: _ => is_dir (path_parent (fst e)) s
                 end
             end) s.

(** [removable], decided. *)
Definition removableb (p : path) (s : fs) : bool :=
  forallb (fun e => negb (path_under p (fst e)) || negb (immutable (snd e))) s.

(** ** Sample runs *)

Module Sample.

Definition uid_a : pystr := py "3f2b8c1e9a4d4c7e8b1a5d6e7f8091a2".
Definition uid_b : pystr := py "0c9d1b7a55e246f39a0b6c3d2e1f4a58".

Definition uuids (n : nat) : pystr :=
  match n with O => uid_a | _ => uid_b end.

Definition workdir : path := path_div BASE_TEMP uid_a.

Definition regular (size : Z) : inode :=
  {| i_type := Regular; st_size := size; immutable := false |}.

(** The tool leaves three media files, two of them of the largest size. *)
Definition tool_three_files : env :=
  {| uuid4_hex := uuids;
     extract_info := fun _ _ s =>
       (Ok tt, s ++ [ (path_div workdir (py "clip.f137.mp4"), regular 10);
                      (path_div workdir (py "clip.mp4"), regular 30);
                      (path_div workdir (py "clip.webm"), regular 30) ]);
     extract_seconds := fun _ _ _ => 42%N |}.

(** The tool returns without leaving anything. *)
Definition tool_nothing : env :=
  {| uuid4_hex := uuids; extract_info := fun _ _ s => (Ok tt, s);
     extract_seconds := fun _ _ _ => 3%N |}.

(** The tool raises. *)
Definition unsupported : exn :=
  {| exc_class := py "DownloadError";
     exc_str := py "ERROR: Unsupported URL: https://example.com/watch" |}.

Definition tool_raises : env :=
  {| uuid4_hex := uuids; extract_info := fun _ _ s => (Raise unsupported, s);
     extract_seconds := fun _ _ _ => 1%N |}.

(** The tool leaves a file of 1500 bytes next to a subdirectory, whose
    [st_size] is 4096. *)
Definition tool_subdir : env :=
  {| uuid4_hex := uuids;
     extract_info := fun _ _ s =>
       (Ok tt, s ++ [ (path_div workdir (py "clip.mp4"), regular 1500);
                      (path_div workdir (py "fragments"), new_dir) ]);
     extract_seconds := fun _ _ _ => 65%N |}.

(** The process just after import, at time 1000. *)
Definition booted : world :=
  snd (startup {| files := []; clock := 1000; uuid_count := 0; log := [] |}).

Definition form_audio : form :=
  [ (py "url", py "  https://example.com/watch?v=1 "); (py "kind", py "audio") ].

Definition form_video : form :=
  [ (py "url", py "https://example.com/watch?v=2") ].

Definition form_other : form :=
  [ (py "url", py "http://example.com/b"); (py "kind", py "video") ].

Definition form_ftp : form :=
  [ (py "url", py "ftp://example.com/file"); (py "kind", py "video") ].

(** A directory with two entries, one of which cannot be removed. *)
Definition pinned_tree : world :=
  {| files := [ (BASE_TEMP, new_dir);
                (workdir, new_dir);
                (path_div workdir (py "a.mp4"), regular 10);
                (path_div workdir (py "b.part"),
                 {| i_type := Regular; st_size := 5; immutable := true |}) ];
     clock := 2000; uuid_count := 1; log := [] |}.

(** The world in which the sample requests reach the extraction tool. *)
Definition ready : world :=
  snd (mkdir workdir true true (snd (uuid4 tool_nothing booted))).

(** The world after the audio request was served by [tool_three_files]. *)
Definition served_world : world :=
  snd (download tool_three_files form_audio booted).

End Sample.

(** ** Further cases *)

Module Cases.


(** The next work directory is there already and holds a file. *)
Definition reused : world :=
  {| files := files Sample.booted ++
              [ (Sample.workdir, new_dir);
                (path_div Sample.workdir (py "old.mp4"), Sample.regular 700) ];
     clock := 1000; uuid_count := 0; log := log Sample.booted |}.

(** The tool leaves a small file and a link to a large file that is gone. *)
Definition tool_dangling : env :=
  {| uuid4_hex := Sample.uuids;
     extract_info := fun _ _ s =>
       (Ok tt, s ++ [ (path_div Sample.workdir (py "clip.part.link"),
                       {| i_type := Dangling; st_size := 9000;
                          immutable := false |});
                      (path_div Sample.workdir (py "clip.mp4"),
                       Sample.regular 20) ]);
     extract_seconds := fun _ _ _ => 20%N |}.



(** [downloads_temp] may not be searched: [stat] of anything below it
    fails. *)
Definition unsearchable : stat_fault :=
  fun p _ =>
    if path_under BASE_TEMP p && negb (path_eqb BASE_TEMP p)
    then Some (OSError_of "PermissionError" "[Errno 13] Permission denied" p)
    else None.

(** Two requests have left their files. *)
Definition two_requests : world :=
  {| files := [ (BASE_TEMP, new_dir);
                (Sample.workdir, new_dir);
                (path_div Sample.workdir (py "a.mp4"), Sample.regular 10);
                (path_div BASE_TEMP Sample.uid_b, new_dir);
                (path_div (path_div BASE_TEMP Sample.uid_b) (py "b.mp4"),
                 Sample.regular 20) ];
     clock := 3000; uuid_count := 2; log := [] |}.

End Cases.

(** * Properties *)

(** ** Equality tests and the log *)

Lemma pystr_eqb_eq (a b : pystr) : pystr_eqb a b = true <-> a = b.
Proof.
  revert b; induction a as [|x a IH]; intros [|y b]; simpl; split;
    try congruence; try reflexivity.
  - intros H; apply andb_true_iff in H as [Hx Hab].
    apply N.eqb_eq in Hx; apply IH in Hab; congruence.
  - intros H; injection H as -> ->.
    rewrite N.eqb_refl; simpl; now apply IH.
Qed.

Lemma pystr_eqb_refl (a : pystr) : pystr_eqb a a = true.
Proof. now apply pystr_eqb_eq. Qed.

Lemma path_eqb_eq (p q : path) : path_eqb p q = true <-> p = q.
Proof.
  revert q; induction p as [|a p IH]; intros [|b q]; simpl; split;
    try congruence; try reflexivity.
  - intros H; apply andb_true_iff in H as [Ha Hpq].
    apply pystr_eqb_eq in Ha; apply IH in Hpq; congruence.
  - intros H; injection H as -> ->.
    rewrite pystr_eqb_refl; simpl; now apply IH.
Qed.

Lemma path_eqb_refl (p : path) : path_eqb p p = true.
Proof. now apply path_eqb_eq. Qed.

Lemma path_eqb_neq (p q : path) : path_eqb p q = false <-> p <> q.
Proof.
  split.
  - intros H ->; rewrite path_eqb_refl in H; discriminate.
  - intros H; destruct (path_eqb p q) eqn:E; [|reflexivity].
    apply path_eqb_eq in E; contradiction.
Qed.

Lemma events_since_app (w w' : world) (evs : list (Z * event)) :
  log w' = log w ++ evs -> events_since w w' = evs.
Proof.
  intros H; unfold events_since; rewrite H.
  rewrite skipn_app, skipn_all, Nat.sub_diag; reflexivity.
Qed.

Lemma events_since_emit (w : world) (e : event) :
  events_since w (emit e w) = [(clock w, e)].
Proof. now apply events_since_app. Qed.

(** ** C8: requests without an http(s) URL *)

(** C8.  When the [url] field, stripped, is empty or starts with neither
    [http://] nor [https://], the handler flashes "Please enter a valid
    URL" and redirects to the index page; the filesystem is untouched, no
    UUID is drawn, no directory is made and the extraction tool is not
    called. *)
Theorem download_rejects_invalid_url (E : env) (f : form) (w : world) :
  let url := strip (or_empty (form_get (py "url") f)) in
  url = [] \/
  (startswith url (py "http://") = false /\
   startswith url (py "https://") = false) ->
  let (r, w') := download E f w in
  r = Ok (Redirect (url_for "index")) /\
  events_since w w' = [(clock w, EvFlash (py "Please enter a valid URL"))] /\
  made_dirs (events_since w w') = [] /\
  extractions (events_since w w') = [] /\
  files w' = files w /\
  uuid_count w' = uuid_count w.
Proof.
  intros url H.
  assert (Hrej : url_rejected (form_url f) = true).
  { unfold form_url; fold url; destruct H as [-> | [H1 H2]]; [reflexivity|].
    unfold url_rejected; rewrite H1, H2; now destruct url. }
  unfold download; rewrite Hrej.
  unfold bind, flash, tell, ret, redirect.
  rewrite events_since_emit; simpl; repeat split; reflexivity.
Qed.

(** ** Removals *)

Lemma lookup_drop_entry (p : path) (s : fs) : lookup p (drop_entry p s) = None.
Proof.
  induction s as [|[q i] s IH]; simpl; [reflexivity|].
  destruct (path_eqb q p) eqn:E; simpl; [exact IH|].
  rewrite E; exact IH.
Qed.

Lemma lookup_drop_entry_other (p q : path) (s : fs) :
  p <> q -> lookup q (drop_entry p s) = lookup q s.
Proof.
  intros Hpq; induction s as [|[r i] s IH]; simpl; [reflexivity|].
  destruct (path_eqb r p) eqn:E; simpl.
  - apply path_eqb_eq in E; subst r.
    apply path_eqb_neq in Hpq; rewrite Hpq; exact IH.
  - destruct (path_eqb r q); [reflexivity | exact IH].
Qed.

Lemma removes_at_refl (w : world) : removes_at (clock w) w w.
Proof.
  repeat split; exists []; split; [now rewrite app_nil_r | constructor].
Qed.

Lemma removes_at_trans (t : Z) (w1 w2 w3 : world) :
  removes_at t w1 w2 -> removes_at t w2 w3 -> removes_at t w1 w3.
Proof.
  intros (H1 & H2 & H3 & e1 & L1 & F1) (H4 & H5 & H6 & e2 & L2 & F2).
  repeat split; try congruence.
  exists (e1 ++ e2); split.
  - rewrite L2, L1, app_assoc; reflexivity.
  - apply Forall_app; split; assumption.
Qed.

Lemma removes_at_drop (p : path) (w : world) :
  removes_at (clock w) w (emit (EvRemove p) (set_files (drop_entry p (files w)) w)).
Proof.
  repeat split; exists [(clock w, EvRemove p)]; split; [reflexivity|].
  constructor; [|constructor]; simpl; split; [reflexivity | now exists p].
Qed.

Lemma unlink_removes (p : path) (w : world) :
  removes_at (clock w) w (snd (unlink p w)).
Proof.
  unfold unlink; destruct (lookup p (files w)) as [i|]; simpl;
    [|apply removes_at_refl].
  destruct (is_type Directory i); simpl; [apply removes_at_refl|].
  destruct (immutable i); simpl; [apply removes_at_refl | apply removes_at_drop].
Qed.

Lemma rmdir_removes (p : path) (w : world) :
  removes_at (clock w) w (snd (rmdir p w)).
Proof.
  unfold rmdir; destruct (lookup p (files w)) as [i|]; simpl;
    [|apply removes_at_refl].
  destruct (negb (is_type Directory i)); simpl; [apply removes_at_refl|].
  destruct (glob_star p (files w)); simpl; [|apply removes_at_refl].
  destruct (immutable i); simpl; [apply removes_at_refl | apply removes_at_drop].
Qed.

Lemma bind_removes {A B} (m : M A) (k : A -> M B) (w : world) :
  (forall w0, removes_at (clock w0) w0 (snd (m w0))) ->
  (forall a w0, removes_at (clock w0) w0 (snd (k a w0))) ->
  removes_at (clock w) w (snd (bind m k w)).
Proof.
  intros Hm Hk; unfold bind.
  specialize (Hm w); destruct (m w) as [[a|e] w1]; simpl in *; [|exact Hm].
  apply removes_at_trans with w1; [exact Hm|].
  destruct Hm as (_ & Hc & _); rewrite <- Hc; apply Hk.
Qed.

Lemma for_each_removes {A} (xs : list A) (body : A -> M unit) (w : world) :
  (forall a w0, removes_at (clock w0) w0 (snd (body a w0))) ->
  removes_at (clock w) w (snd (for_each xs body w)).
Proof.
  intros Hb; revert w; induction xs as [|x xs IH]; intros w; simpl.
  - apply removes_at_refl.
  - apply bind_removes; [apply Hb | intros _ w0; apply IH].
Qed.

Lemma rmtree_walk_removes (depth : nat) (p : path) (w : world) :
  removes_at (clock w) w (snd (rmtree_walk depth p w)).
Proof.
  revert p w; induction depth as [|d IH]; intros p w; simpl.
  - apply rmdir_removes.
  - apply bind_removes; [intros w0; apply removes_at_refl|].
    intros entries w0; apply bind_removes; [|intros _ w1; apply rmdir_removes].
    intros w1; apply for_each_removes; intros c w2.
    apply bind_removes; [intros w3; apply removes_at_refl|].
    intros s w3; destruct (is_dir c s); [apply IH | apply unlink_removes].
Qed.

Lemma rmtree_removes (p : path) (w : world) :
  removes_at (clock w) w (snd (rmtree p w)).
Proof.
  unfold rmtree; destruct (lookup p (files w)) as [i|]; simpl;
    [|apply removes_at_refl].
  destruct (negb (is_type Directory i)); simpl;
    [apply removes_at_refl | apply rmtree_walk_removes].
Qed.

Lemma remove_path_removes (p : path) (w : world) :
  removes_at (clock w) w (snd (remove_path p w)).
Proof.
  unfold remove_path; apply bind_removes; [intros w0; apply removes_at_refl|].
  intros s w0; destruct (is_file p s); [apply unlink_removes | apply rmtree_removes].
Qed.

(** A removal that returns has removed its target. *)
Lemma unlink_ok_gone (p : path) (w w' : world) :
  unlink p w = (Ok tt, w') -> lookup p (files w') = None.
Proof.
  unfold unlink; destruct (lookup p (files w)) as [i|]; [|discriminate].
  destruct (is_type Directory i); [discriminate|].
  destruct (immutable i); [discriminate|].
  intros H; injection H as <-; simpl; apply lookup_drop_entry.
Qed.

Lemma rmdir_ok_gone (p : path) (w w' : world) :
  rmdir p w = (Ok tt, w') -> lookup p (files w') = None.
Proof.
  unfold rmdir; destruct (lookup p (files w)) as [i|]; [|discriminate].
  destruct (negb (is_type Directory i)); [discriminate|].
  destruct (glob_star p (files w)); [|discriminate].
  destruct (immutable i); [discriminate|].
  intros H; injection H as <-; simpl; apply lookup_drop_entry.
Qed.

Lemma bind_ok_inv {A B} (m : M A) (k : A -> M B) (w w' : world) (b : B) :
  bind m k w = (Ok b, w') ->
  exists a w1, m w = (Ok a, w1) /\ k a w1 = (Ok b, w').
Proof.
  unfold bind; destruct (m w) as [[a|e] w1]; [|discriminate].
  intros H; now exists a, w1.
Qed.

Lemma rmtree_walk_ok_gone (depth : nat) (p : path) (w w' : world) :
  rmtree_walk depth p w = (Ok tt, w') -> lookup p (files w') = None.
Proof.
  destruct depth as [|d]; simpl; [apply rmdir_ok_gone|].
  intros H.
  apply bind_ok_inv in H as (entries & w1 & _ & H).
  apply bind_ok_inv in H as ([] & w2 & _ & H).
  now apply rmdir_ok_gone in H.
Qed.

Lemma remove_path_ok_gone (p : path) (w w' : world) :
  remove_path p w = (Ok tt, w') -> path_exists p (files w') = false.
Proof.
  unfold remove_path, bind, get_files; intros H.
  assert (L : lookup p (files w') = None).
  { destruct (is_file p (files w)); [now apply unlink_ok_gone in H|].
    unfold rmtree in H; destruct (lookup p (files w)) as [i|]; [|discriminate].
    destruct (negb (is_type Directory i)); [discriminate|].
    now apply rmtree_walk_ok_gone in H. }
  unfold path_exists; now rewrite L.
Qed.

Lemma removal_times_at (t : Z) (evs : list (Z * event)) :
  Forall (fun te => fst te = t /\ exists q, snd te = EvRemove q) evs ->
  Forall (fun t' => t' = t) (removal_times evs).
Proof.
  induction 1 as [|[t' e] evs [Ht _] _ IH]; simpl; [constructor|].
  destruct e; try exact IH; constructor; [exact Ht | exact IH].
Qed.

Lemma sleep_ok (secs : Z) (w : world) :
  0 <= secs <= sleep_max ->
  sleep secs w =
  (Ok tt, {| files := files w; clock := clock w + secs;
             uuid_count := uuid_count w; log := log w |}).
Proof.
  intros H; unfold sleep.
  destruct (secs <? - sleep_max) eqn:E1;
    [apply Z.ltb_lt in E1; unfold sleep_max in *; lia|].
  destruct (sleep_max <? secs) eqn:E2; [apply Z.ltb_lt in E2; lia|].
  destruct (secs <? 0) eqn:E; [apply Z.ltb_lt in E; lia | reflexivity].
Qed.

(** [time.sleep] returns, the clock moved on by the delay and nothing else
    changed, or raises and changes nothing. *)
Lemma sleep_cases (secs : Z) (w : world) :
  sleep secs w =
    (Ok tt, {| files := files w; clock := clock w + secs;
               uuid_count := uuid_count w; log := log w |}) \/
  exists e, sleep secs w = (Raise e, w).
Proof.
  unfold sleep.
  destruct ((secs <? - sleep_max) || (sleep_max <? secs)); [right; now eexists|].
  destruct (secs <? 0); [right; now eexists | now left].
Qed.

(** The world [cleanup_path] leaves, by cases. *)
Lemma cleanup_path_world (p : path) (d : Z) (w : world) :
  snd (cleanup_path p d w) =
  match sleep d w with
  | (Raise _, _) => w
  | (Ok _, w1) =>
      if path_exists p (files w) then snd (remove_path p w1) else w1
  end.
Proof.
  unfold cleanup_path, cleanup_path_under, bind at 1.
  destruct (sleep_cases d w) as [-> | (e & ->)]; cbn [snd]; [|reflexivity].
  unfold bind, exists_call, no_fault; cbn [files].
  destruct (path_exists p (files w)); [|reflexivity].
  unfold try_except, ret.
  now destruct (remove_path p _) as [[[]|e] w2].
Qed.

(** ** Recursive removal of a well-formed tree *)

Lemma path_under_spec (p q : path) :
  path_under p q = true <-> exists r, q = p ++ r.
Proof.
  revert q; induction p as [|a p IH]; intros q; simpl.
  - split; [intros _; now exists q | reflexivity].
  - destruct q as [|b q].
    + split; [discriminate | intros [r Hr]; discriminate].
    + rewrite andb_true_iff, pystr_eqb_eq, IH; split.
      * intros [-> [r ->]]; now exists r.
      * intros [r Hr]; injection Hr as -> ->; split; [reflexivity | now exists r].
Qed.

Lemma path_under_refl (p : path) : path_under p p = true.
Proof. apply path_under_spec; exists []; now rewrite app_nil_r. Qed.

Lemma path_under_trans (p q r : path) :
  path_under p q = true -> path_under q r = true -> path_under p r = true.
Proof.
  rewrite !path_under_spec; intros [a ->] [b ->].
  exists (a ++ b); now rewrite app_assoc.
Qed.

Lemma is_child_spec (d q : path) :
  is_child d q = true <-> exists x, q = d ++ [x].
Proof.
  unfold is_child, path_parent; destruct q as [|a q].
  - split; [discriminate | intros [x Hx]; now destruct d].
  - rewrite path_eqb_eq; split.
    + intros <-; exists (last (a :: q) []).
      apply app_removelast_last; discriminate.
    + intros [x ->]; apply removelast_last.
Qed.

Lemma lookup_some_in (q : path) (i : inode) (s : fs) :
  lookup q s = Some i -> In (q, i) s.
Proof.
  induction s as [|[r j] s IH]; simpl; [discriminate|].
  destruct (path_eqb r q) eqn:E.
  - apply path_eqb_eq in E; subst r; intros H; injection H as ->; now left.
  - intros H; right; now apply IH.
Qed.

Lemma in_lookup (q : path) (i : inode) (s : fs) :
  NoDup (map fst s) -> In (q, i) s -> lookup q s = Some i.
Proof.
  induction s as [|[r j] s IH]; simpl; [contradiction|].
  intros Hnd [Heq | Hin].
  - injection Heq as -> ->; now rewrite path_eqb_refl.
  - inversion Hnd as [|? ? Hnot Hnd']; subst.
    destruct (path_eqb r q) eqn:E.
    + apply path_eqb_eq in E; subst r.
      exfalso; apply Hnot; apply in_map_iff; now exists (q, i).
    + now apply IH.
Qed.

Lemma lookup_keep (g : path -> bool) (q : path) (s : fs) :
  lookup q (keep g s) = if g q then lookup q s else None.
Proof.
  unfold keep; induction s as [|[r j] s IH]; simpl; [now destruct (g q)|].
  destruct (g r) eqn:Gr; simpl.
  - destruct (path_eqb r q) eqn:E; [|exact IH].
    apply path_eqb_eq in E; subst r; now rewrite Gr.
  - destruct (path_eqb r q) eqn:E; [|exact IH].
    apply path_eqb_eq in E; subst r; rewrite Gr in IH |- *; exact IH.
Qed.

Lemma keep_keep (g h : path -> bool) (s : fs) :
  keep g (keep h s) = keep (fun q => h q && g q) s.
Proof.
  unfold keep; induction s as [|[r j] s IH]; simpl; [reflexivity|].
  destruct (h r); simpl; [destruct (g r); simpl; now rewrite IH | exact IH].
Qed.

Lemma keep_ext_in (g h : path -> bool) (s : fs) :
  (forall q i, In (q, i) s -> g q = h q) -> keep g s = keep h s.
Proof.
  intros H; unfold keep; apply filter_ext_in; intros [q i] Hin; now apply (H q i).
Qed.

Lemma in_keep (g : path -> bool) (q : path) (i : inode) (s : fs) :
  In (q, i) (keep g s) <-> In (q, i) s /\ g q = true.
Proof. unfold keep; now rewrite filter_In. Qed.

Lemma NoDup_keep (g : path -> bool) (s : fs) :
  NoDup (map fst s) -> NoDup (map fst (keep g s)).
Proof.
  unfold keep; induction s as [|[r j] s IH]; simpl; [trivial|].
  intros Hnd; inversion Hnd as [|? ? Hnot Hnd']; subst.
  destruct (g r); simpl; [|now apply IH].
  constructor; [|now apply IH].
  intros Hin; apply Hnot.
  apply in_map_iff in Hin as [[q i] [Hq Hin]]; simpl in Hq; subst q.
  apply filter_In in Hin as [Hin _].
  apply in_map_iff; now exists (r, i).
Qed.

Lemma in_glob_star (d c : path) (s : fs) :
  In c (glob_star d s) <-> is_child d c = true /\ exists i, In (c, i) s.
Proof.
  unfold glob_star; rewrite in_map_iff; split.
  - intros [[q i] [Hq Hin]]; simpl in Hq; subst q.
    apply filter_In in Hin as [Hin Hc]; split; [exact Hc | now exists i].
  - intros [Hc [i Hin]]; exists (c, i); split; [reflexivity|].
    apply filter_In; now split.
Qed.

Lemma NoDup_glob_star (d : path) (s : fs) :
  NoDup (map fst s) -> NoDup (glob_star d s).
Proof. intros H; unfold glob_star; now apply (NoDup_keep (is_child d)). Qed.

Lemma path_parent_under (p q : path) :
  path_under p q = true -> p <> q -> path_under p (path_parent q) = true.
Proof.
  rewrite !path_under_spec; intros [r ->] Hne.
  destruct r as [|x r] using rev_ind; [now rewrite app_nil_r in Hne|].
  exists r; unfold path_parent; now rewrite app_assoc, removelast_last.
Qed.

Lemma wf_is_dir_ne (s : fs) (p : path) :
  wf_fs s -> is_dir p s = true -> p <> [].
Proof.
  intros [_ Hwf]; unfold is_dir.
  destruct (lookup p s) as [i|] eqn:L; [|discriminate].
  intros _; now apply (Hwf p i), lookup_some_in.
Qed.

(** Below an entry that is not a directory there is nothing. *)
Lemma wf_above_is_dir (s : fs) (c q : path) (i : inode) :
  wf_fs s -> c <> [] -> In (q, i) s -> path_under c q = true -> c <> q ->
  is_dir c s = true.
Proof.
  intros Hwf Hc Hin Hu Hne.
  apply path_under_spec in Hu as [r ->].
  revert i Hin Hne; induction r as [|x r IH] using rev_ind; intros i Hin Hne.
  - now rewrite app_nil_r in Hne.
  - destruct Hwf as [Hnd Hpar].
    destruct (Hpar _ _ Hin) as [_ Hp].
    unfold path_parent in Hp; rewrite app_assoc, removelast_last in Hp.
    assert (Hd : is_dir (c ++ r) s = true).
    { apply Hp; destruct c; [contradiction | discriminate]. }
    destruct r as [|y r']; [now rewrite app_nil_r in Hd|].
    unfold is_dir in Hd.
    destruct (lookup (c ++ y :: r') s) as [j|] eqn:L; [|discriminate].
    apply (IH j); [now apply lookup_some_in|].
    intros Heq; apply (f_equal (@List.length _)) in Heq.
    rewrite length_app in Heq; simpl in Heq; lia.
Qed.

Lemma wf_prune (p : path) (s : fs) : wf_fs s -> wf_fs (prune p s).
Proof.
  intros [Hnd Hpar]; split; [now apply NoDup_keep|].
  intros q i Hin; apply in_keep in Hin as [Hin Hg].
  destruct (Hpar q i Hin) as [Hq Hp]; split; [exact Hq|].
  intros Hne; specialize (Hp Hne).
  unfold is_dir, prune; rewrite lookup_keep.
  destruct (path_under p (path_parent q)) eqn:U; [|exact Hp].
  exfalso; apply negb_true_iff in Hg.
  assert (path_under p q = true); [|congruence].
  apply path_under_trans with (path_parent q); [exact U|].
  apply path_under_spec; exists [last q []].
  unfold path_parent; now apply app_removelast_last.
Qed.

Lemma path_under_length (p q : path) :
  path_under p q = true -> (List.length p <= List.length q)%nat.
Proof.
  intros H; apply path_under_spec in H as [r ->]; rewrite length_app; lia.
Qed.

Lemma path_under_same_length (p q : path) :
  path_under p q = true -> List.length q = List.length p -> q = p.
Proof.
  intros H L; apply path_under_spec in H as [r ->].
  rewrite length_app in L; destruct r; [now rewrite app_nil_r | simpl in L; lia].
Qed.

Lemma rmdir_ok (p : path) (i : inode) (w : world) :
  lookup p (files w) = Some i -> is_type Directory i = true ->
  glob_star p (files w) = [] -> immutable i = false ->
  rmdir p w = (Ok tt, emit (EvRemove p) (set_files (drop_entry p (files w)) w)).
Proof.
  intros L D G I; unfold rmdir; now rewrite L, D, G, I.
Qed.

Lemma unlink_leaf (c : path) (w : world) :
  wf_fs (files w) -> c <> [] -> (exists i, In (c, i) (files w)) ->
  is_dir c (files w) = false -> removable c (files w) ->
  exists w', unlink c w = (Ok tt, w') /\ files w' = prune c (files w).
Proof.
  intros Hwf Hc [i Hin] Hd Hrm.
  pose proof (in_lookup _ _ _ (proj1 Hwf) Hin) as L.
  unfold is_dir in Hd; rewrite L in Hd.
  eexists; split.
  - unfold unlink; rewrite L, Hd, (Hrm c i Hin (path_under_refl c)); reflexivity.
  - cbn [files emit set_files]; unfold drop_entry, prune.
    apply (keep_ext_in (fun q => negb (path_eqb q c))).
    intros q j Hq; f_equal.
    destruct (path_under c q) eqn:U.
    + apply path_eqb_eq.
      destruct (path_eqb q c) eqn:E; [now apply path_eqb_eq in E|].
      apply path_eqb_neq in E.
      assert (Hdir : is_dir c (files w) = true).
      { apply (wf_above_is_dir _ c q j); auto. }
      unfold is_dir in Hdir; rewrite L in Hdir; congruence.
    + apply path_eqb_neq; intros ->; rewrite path_under_refl in U; discriminate.
Qed.

Section Walk.
Variable d : nat.
Hypothesis IHd : forall p w,
  wf_fs (files w) -> is_dir p (files w) = true -> removable p (files w) ->
  within d p (files w) ->
  exists w', rmtree_walk d p w = (Ok tt, w') /\ files w' = prune p (files w).

Lemma walk_entry_ok (c : path) (w : world) :
  wf_fs (files w) -> c <> [] -> (exists i, In (c, i) (files w)) ->
  removable c (files w) -> within d c (files w) ->
  exists w', walk_entry d c w = (Ok tt, w') /\ files w' = prune c (files w).
Proof.
  intros Hwf Hc Hin Hrm Hb; unfold walk_entry, bind, get_files.
  destruct (is_dir c (files w)) eqn:D; [now apply IHd | now apply unlink_leaf].
Qed.

Lemma for_each_children_ok (cs : list path) (w : world) :
  wf_fs (files w) -> NoDup cs ->
  (forall c, In c cs ->
     c <> [] /\ (exists i, In (c, i) (files w)) /\
     removable c (files w) /\ within d c (files w)) ->
  (forall c c', In c cs -> In c' cs -> c <> c' -> path_under c c' = false) ->
  exists w',
    for_each cs (walk_entry d) w = (Ok tt, w') /\
    files w' = keep (fun q => negb (under_any cs q)) (files w).
Proof.
  revert w; induction cs as [|c cs IH]; intros w Hwf Hnd Hcs Hsib.
  - exists w; split; [reflexivity|].
    unfold keep; simpl; symmetry; apply forallb_filter_id.
    now apply forallb_forall.
  - destruct (Hcs c (or_introl eq_refl)) as (Hc & Hin & Hrm & Hb).
    destruct (walk_entry_ok c w Hwf Hc Hin Hrm Hb) as (w1 & Hrun & Hf1).
    inversion Hnd as [|? ? Hnotin Hnd']; subst.
    destruct (IH w1) as (w' & Hrun' & Hf').
    + rewrite Hf1; now apply wf_prune.
    + exact Hnd'.
    + intros c' Hc'; destruct (Hcs c' (or_intror Hc')) as (H1 & [i Hi] & H3 & H4).
      rewrite Hf1; split; [exact H1|]; split; [|split].
      * exists i; apply in_keep; split; [exact Hi|].
        apply negb_true_iff, Hsib; [now left | now right|].
        intros ->; contradiction.
      * intros q j Hq; apply in_keep in Hq as [Hq _]; now apply (H3 q j).
      * intros q j Hq; apply in_keep in Hq as [Hq _]; now apply (H4 q j).
    + intros a b Ha Hb'; apply Hsib; now right.
    + exists w'; split.
      * simpl; unfold bind; now rewrite Hrun.
      * rewrite Hf', Hf1; unfold prune; rewrite keep_keep.
        apply keep_ext_in; intros q j _; simpl; now rewrite negb_orb.
Qed.
End Walk.

Lemma child_facts (p c : path) :
  is_child p c = true ->
  c <> [] /\ path_under p c = true /\ List.length c = S (List.length p).
Proof.
  intros H; apply is_child_spec in H as [x ->]; split; [|split].
  - now destruct p.
  - apply path_under_spec; now exists [x].
  - rewrite length_app; simpl; lia.
Qed.

(** With enough levels allowed, the walk removes a directory of a
    well-formed table in which nothing refuses, and all that is below it. *)
Lemma rmtree_walk_ok (d : nat) :
  forall p w,
    wf_fs (files w) -> is_dir p (files w) = true -> removable p (files w) ->
    within d p (files w) ->
    exists w', rmtree_walk d p w = (Ok tt, w') /\ files w' = prune p (files w).
Proof.
  induction d as [|d IHd]; intros p w Hwf Hdir Hrm Hb.
  - (* nothing may lie below [p] *)
    unfold is_dir in Hdir.
    destruct (lookup p (files w)) as [i|] eqn:L; [|discriminate].
    pose proof (lookup_some_in _ _ _ L) as Hin.
    assert (G : glob_star p (files w) = []).
    { destruct (glob_star p (files w)) as [|c cs] eqn:G; [reflexivity|].
      assert (Hc : In c (glob_star p (files w))) by (rewrite G; now left).
      apply in_glob_star in Hc as [Hch [j Hj]].
      destruct (child_facts _ _ Hch) as (_ & Hu & Hl).
      specialize (Hb c j Hj Hu); lia. }
    eexists; split.
    + simpl; apply (rmdir_ok p i); auto.
      apply (Hrm p i Hin (path_under_refl p)).
    + cbn [files emit set_files]; unfold drop_entry, prune.
      apply (keep_ext_in (fun q => negb (path_eqb q p))).
      intros q j Hq; f_equal.
      destruct (path_under p q) eqn:U.
      * apply path_eqb_eq, path_under_same_length; [exact U|].
        specialize (Hb q j Hq U); apply path_under_length in U; lia.
      * apply path_eqb_neq; intros ->; rewrite path_under_refl in U; discriminate.
  - (* empty the directory, entry by entry, then remove it *)
    pose proof (wf_is_dir_ne _ _ Hwf Hdir) as Hp.
    set (cs := glob_star p (files w)).
    destruct (for_each_children_ok d IHd cs w) as (w2 & Hloop & Hf2).
    + exact Hwf.
    + now apply NoDup_glob_star; destruct Hwf.
    + intros c Hc; apply in_glob_star in Hc as [Hch Hin].
      destruct (child_facts _ _ Hch) as (Hne & Hu & Hl).
      split; [exact Hne|]; split; [exact Hin|]; split.
      * intros q j Hq Hq'; apply (Hrm q j Hq).
        now apply path_under_trans with c.
      * intros q j Hq Hq'.
        assert (path_under p q = true) by now apply path_under_trans with c.
        specialize (Hb q j Hq H); lia.
    + intros c c' Hc Hc' Hne.
      apply in_glob_star in Hc as [Hch _]; apply in_glob_star in Hc' as [Hch' _].
      destruct (child_facts _ _ Hch) as (_ & _ & Hl).
      destruct (child_facts _ _ Hch') as (_ & _ & Hl').
      destruct (path_under c c') eqn:U; [|reflexivity].
      exfalso; apply Hne; symmetry; apply path_under_same_length; [exact U | lia].
    + unfold is_dir in Hdir.
      destruct (lookup p (files w)) as [i|] eqn:L; [|discriminate].
      pose proof (lookup_some_in _ _ _ L) as Hin.
      assert (Hnot : under_any cs p = false).
      { destruct (under_any cs p) eqn:U; [|reflexivity].
        apply existsb_exists in U as [c [Hc Hu]].
        apply in_glob_star in Hc as [Hch _].
        destruct (child_facts _ _ Hch) as (_ & _ & Hl).
        apply path_under_length in Hu; lia. }
      assert (L2 : lookup p (files w2) = Some i).
      { rewrite Hf2, lookup_keep, Hnot; exact L. }
      assert (G2 : glob_star p (files w2) = []).
      { destruct (glob_star p (files w2)) as [|c rest] eqn:G; [reflexivity|].
        assert (Hc : In c (glob_star p (files w2))) by (rewrite G; now left).
        apply in_glob_star in Hc as [Hch [j Hj]].
        rewrite Hf2 in Hj; apply in_keep in Hj as [Hj Hg].
        apply negb_true_iff in Hg.
        assert (under_any cs c = true); [|congruence].
        apply existsb_exists; exists c; split; [|apply path_under_refl].
        apply in_glob_star; split; [exact Hch | now exists j]. }
      eexists; split.
      * simpl; unfold bind at 1; fold cs.
        change (for_each cs _) with (for_each cs (walk_entry d)).
        unfold bind; rewrite Hloop.
        apply (rmdir_ok p i); auto.
        apply (Hrm p i Hin (path_under_refl p)).
      * cbn [files emit set_files]; rewrite Hf2.
        unfold drop_entry; change (filter _ (keep ?g ?s))
          with (keep (fun q => negb (path_eqb q p)) (keep g s)).
        rewrite keep_keep; unfold prune.
        apply keep_ext_in; intros q j Hq.
        destruct (path_under p q) eqn:U; simpl.
        -- destruct (path_eqb q p) eqn:E; [now rewrite andb_false_r|].
           rewrite andb_true_r; apply negb_false_iff.
           apply path_eqb_neq in E.
           apply path_under_spec in U as [r Hr].
           destruct r as [|x r]; [rewrite app_nil_r in Hr; congruence|].
           assert (Hu : path_under (p ++ [x]) q = true).
           { apply path_under_spec; exists r; subst q.
             now rewrite <- app_assoc. }
           apply existsb_exists; exists (p ++ [x]); split; [|exact Hu].
           apply in_glob_star; split; [apply is_child_spec; now exists x|].
           destruct r as [|y r].
           ++ exists j; subst q; exact Hq.
           ++ assert (Hd : is_dir (p ++ [x]) (files w) = true).
              { apply (wf_above_is_dir _ _ q j); auto.
                - now destruct p.
                - subst q; intros Heq.
                  apply (f_equal (@List.length _)) in Heq.
                  rewrite !length_app in Heq; simpl in Heq; lia. }
              unfold is_dir in Hd.
              destruct (lookup (p ++ [x]) (files w)) as [k|] eqn:Lk;
                [|discriminate].
              exists k; now apply lookup_some_in.
        -- assert (Hq' : under_any cs q = false).
           { destruct (under_any cs q) eqn:A; [|reflexivity].
             apply existsb_exists in A as [c [Hc Hu]].
             apply in_glob_star in Hc as [Hch _].
             destruct (child_facts _ _ Hch) as (_ & Hpc & _).
             rewrite (path_under_trans _ _ _ Hpc Hu) in U; discriminate. }
           rewrite Hq'; simpl.
           apply negb_true_iff, path_eqb_neq; intros ->.
           rewrite path_under_refl in U; discriminate.
Qed.

Lemma height_bound (s : fs) (q : path) (i : inode) :
  In (q, i) s -> (List.length q <= height s)%nat.
Proof.
  induction s as [|[r j] s IH]; simpl; [contradiction|].
  intros [Heq | Hin]; [injection Heq as -> _; lia|].
  specialize (IH Hin); lia.
Qed.

(** [shutil.rmtree] succeeds on a directory of a well-formed table in which
    nothing refuses removal, and leaves the table without it. *)
Lemma rmtree_ok (p : path) (w : world) :
  wf_fs (files w) -> is_dir p (files w) = true -> removable p (files w) ->
  exists w', rmtree p w = (Ok tt, w') /\ files w' = prune p (files w).
Proof.
  intros Hwf Hdir Hrm.
  destruct (rmtree_walk_ok (height (files w)) p w Hwf Hdir Hrm) as (w' & H & Hf).
  - intros q i Hq _; pose proof (height_bound _ _ _ Hq); lia.
  - exists w'; split; [|exact Hf].
    unfold rmtree; unfold is_dir in Hdir.
    destruct (lookup p (files w)) as [i|]; [|discriminate].
    now rewrite Hdir.
Qed.

(** The guarded removal succeeds on an existing path of a well-formed
    table in which nothing at or below the path refuses removal. *)
Lemma remove_path_ok (p : path) (w : world) :
  wf_fs (files w) -> path_exists p (files w) = true -> removable p (files w) ->
  exists w', remove_path p w = (Ok tt, w') /\ files w' = prune p (files w).
Proof.
  intros Hwf Hex Hrm; unfold remove_path, bind, get_files.
  unfold path_exists in Hex.
  destruct (lookup p (files w)) as [i|] eqn:L; [|discriminate].
  pose proof (lookup_some_in _ _ _ L) as Hin.
  destruct (is_file p (files w)) eqn:F.
  - apply unlink_leaf; auto.
    + now apply (proj2 Hwf p i).
    + now exists i.
    + unfold is_file in F; unfold is_dir; rewrite L in *.
      unfold is_type in *; now destruct (i_type i).
  - apply rmtree_ok; auto.
    unfold is_file in F; unfold is_dir; rewrite L in *.
    unfold is_type in *; now destruct (i_type i).
Qed.

(** ** C3: deferred deletion *)

Lemma cleanup_path_no_fault (p : path) (d : Z) (w : world) :
  cleanup_path_under no_fault p d w = cleanup_path p d w.
Proof. reflexivity. Qed.

(** C3, as the code has it.  [time.sleep] and [path.exists()] stand outside
    the [try]: when [time.sleep] raises, [cleanup_path] raises the same
    exception and has done nothing; when it returns, the clock has moved on
    by the delay, and when the existence test then raises, [cleanup_path]
    raises that exception.  When both return, [cleanup_path] returns without
    raising, whatever the removal meets: nothing is removed before the
    delay is over; a path that does not exist then is left alone, and one
    that exists is unlinked when it is a regular file and removed
    recursively otherwise, any error of that removal being swallowed; when
    the removal itself did not fail the path no longer exists; and it does
    not fail on a well-formed table in which nothing at or below the path
    refuses removal: the path and all that is below it are then gone, and
    nothing else. *)
Theorem cleanup_path_waits_then_removes
    (fault : stat_fault) (p : path) (wait_seconds : Z) (w : world) :
  match sleep wait_seconds w with
  | (Raise e, _) =>
      cleanup_path_under fault p wait_seconds w = (Raise e, w)
  | (Ok _, w1) =>
      clock w1 = clock w + wait_seconds /\
      files w1 = files w /\ log w1 = log w /\
      match fault p (files w) with
      | Some e => cleanup_path_under fault p wait_seconds w = (Raise e, w1)
      | None =>
          exists w',
            cleanup_path_under fault p wait_seconds w = (Ok tt, w') /\
            clock w' = clock w + wait_seconds /\
            Forall (fun t => t = clock w + wait_seconds)
                   (removal_times (events_since w w')) /\
            (path_exists p (files w) = false -> w' = w1) /\
            (path_exists p (files w) = true ->
               let attempt :=
                 if is_file p (files w) then unlink p w1 else rmtree p w1 in
               w' = snd attempt /\
               (fst attempt = Ok tt -> path_exists p (files w') = false) /\
               (wf_fs (files w) -> removable p (files w) ->
                  fst attempt = Ok tt /\ files w' = prune p (files w)))
      end
  end.
Proof.
  assert (Hrun : cleanup_path_under fault p wait_seconds w =
                 match sleep wait_seconds w with
                 | (Raise e, w1) => (Raise e, w1)
                 | (Ok _, w1) =>
                     match fault p (files w1) with
                     | Some e => (Raise e, w1)
                     | None =>
                         if path_exists p (files w1)
                         then try_except (remove_path p) (fun _ => ret tt) w1
                         else (Ok tt, w1)
                     end
                 end).
  { unfold cleanup_path_under, bind, exists_call.
    destruct (sleep wait_seconds w) as [[[]|e] w1]; [|reflexivity].
    destruct (fault p (files w1)); [reflexivity|].
    now destruct (path_exists p (files w1)). }
  rewrite Hrun; clear Hrun.
  destruct (sleep_cases wait_seconds w) as [-> | (e & ->)]; [|reflexivity].
  set (w1 := {| files := files w; clock := clock w + wait_seconds;
                uuid_count := uuid_count w; log := log w |}).
  do 3 (split; [reflexivity|]).
  change (files w1) with (files w).
  destruct (fault p (files w)) as [e|]; [reflexivity|].
  destruct (path_exists p (files w)) eqn:Ex.
  - pose proof (remove_path_removes p w1) as R.
    pose proof (remove_path_ok_gone p w1) as G.
    unfold try_except, ret.
    assert (Hatt : remove_path p w1 =
                   (if is_file p (files w) then unlink p w1 else rmtree p w1)).
    { unfold remove_path, bind, get_files; change (files w1) with (files w).
      now destruct (is_file p (files w)). }
    pose proof (remove_path_ok p w1) as K; change (files w1) with (files w) in K.
    destruct (remove_path p w1) as [[[]|e] w2] eqn:Erm; cbn [snd] in R;
      exists w2; destruct R as (_ & Hc & _ & evs & Hl & Hf);
      (split; [reflexivity|]); (split; [exact Hc|]);
      (split; [rewrite (events_since_app w w2 evs Hl);
               now apply removal_times_at|]);
      (split; [discriminate|]); intros _; rewrite <- Hatt; cbn [fst snd];
      (split; [reflexivity|]).
    + split; [intros _; now apply G|].
      intros Hwf Hrm; split; [reflexivity|].
      destruct (K Hwf Ex Hrm) as (w3 & Heq & Hf3).
      injection Heq as <-; exact Hf3.
    + split; [discriminate|].
      intros Hwf Hrm; destruct (K Hwf Ex Hrm) as (w3 & Heq & _); discriminate.
  - exists w1; unfold ret; repeat split; try discriminate.
    rewrite (events_since_app w w1 []); [constructor | now rewrite app_nil_r].
Qed.

(** ** The handler, step by step *)

Lemma download_accepted (E : env) (f : form) (w : world) :
  url_rejected (form_url f) = false ->
  download E f w =
  match mkdir (workdir_of E w) true true (snd (uuid4 E w)) with
  | (Ok _, w2) =>
      try_except
        (download_body E (form_url f) (form_kind f) (workdir_of E w))
        (on_error (workdir_of E w)) w2
  | (Raise e, w2) => (Raise e, w2)
  end.
Proof.
  intros H; unfold download; rewrite H.
  unfold bind at 1; unfold uuid4 at 1; cbn [snd].
  unfold bind at 1; fold (workdir_of E w).
  destruct (mkdir (workdir_of E w) true true _) as [[[]|e] w2]; reflexivity.
Qed.

Lemma download_body_unfold (E : env) (url kind : pystr) (wd : path) (w2 : world) :
  download_body E url kind wd w2 =
  match extract_info E (ydl_opts_of kind wd) url (files w2) with
  | (Raise e, s3) => (Raise e, after_tool E (ydl_opts_of kind wd) url w2 s3)
  | (Ok _, s3) =>
      let w3 := after_tool E (ydl_opts_of kind wd) url w2 s3 in
      match sorted_reverse (size_key s3) (glob_star wd s3) with
      | [] =>
          (Ok (Redirect (url_for "index")),
           emit (EvThread wd 5)
             (emit (EvFlash (py "Download completed but file not found.")) w3))
      | outfile :: _ =>
          send_file outfile (path_name outfile) (emit (EvThread wd 30) w3)
      end
  end.
Proof.
  unfold download_body, bind at 1, YoutubeDL; cbn zeta.
  change (files (emit (EvExtract (ydl_opts_of kind wd) url) w2)) with (files w2).
  destruct (extract_info E (ydl_opts_of kind wd) url (files w2)) as [[[]|e] s3];
    [|reflexivity].
  unfold bind at 1, get_files; cbn [files].
  fold (after_tool E (ydl_opts_of kind wd) url w2 s3).
  change (files (after_tool E (ydl_opts_of kind wd) url w2 s3)) with s3.
  destruct (sorted_reverse (size_key s3) (glob_star wd s3)); reflexivity.
Qed.

Lemma send_file_unfold (p : path) (name : pystr) (w : world) :
  send_file p name w =
  let w' := emit (EvSendFile (path_str p) name) w in
  if is_file p (files w) then (Ok (Attachment (path_str p) name), w')
  else if path_exists p (files w)
  then (Raise (OSError_of "IsADirectoryError" "[Errno 21] Is a directory" p), w')
  else (Raise (OSError_of "FileNotFoundError"
                 "[Errno 2] No such file or directory" p), w').
Proof.
  unfold send_file, bind, tell, get_files; cbn [files emit].
  destruct (is_file p (files w)); [reflexivity|].
  destruct (path_exists p (files w)); reflexivity.
Qed.

Lemma on_error_unfold (wd : path) (e : exn) (w : world) :
  on_error wd e w =
  (Ok (Redirect (url_for "index")),
   emit (EvThread wd 5) (emit (EvFlash (py "Error: " ++ exc_str e)) w)).
Proof. reflexivity. Qed.

(** ** Creating the work directory *)

Lemma scheduled_app (a b : list (Z * event)) :
  scheduled (a ++ b) = scheduled a ++ scheduled b.
Proof.
  induction a as [|[t e] a IH]; simpl; [reflexivity|].
  destruct e; simpl; rewrite IH; reflexivity.
Qed.

Lemma flashed_app (a b : list (Z * event)) :
  flashed (a ++ b) = flashed a ++ flashed b.
Proof.
  induction a as [|[t e] a IH]; simpl; [reflexivity|].
  destruct e; simpl; rewrite IH; reflexivity.
Qed.

Lemma extractions_app (a b : list (Z * event)) :
  extractions (a ++ b) = extractions a ++ extractions b.
Proof.
  induction a as [|[t e] a IH]; simpl; [reflexivity|].
  destruct e; simpl; rewrite IH; reflexivity.
Qed.

Lemma served_app (a b : list (Z * event)) :
  served (a ++ b) = served a ++ served b.
Proof.
  induction a as [|[t e] a IH]; simpl; [reflexivity|].
  destruct e; simpl; rewrite IH; reflexivity.
Qed.

Lemma removal_times_app (a b : list (Z * event)) :
  removal_times (a ++ b) = removal_times a ++ removal_times b.
Proof.
  induction a as [|[t e] a IH]; simpl; [reflexivity|].
  destruct e; simpl; rewrite IH; reflexivity.
Qed.

Lemma mkdirs_only_refl (w : world) : mkdirs_only w w.
Proof.
  repeat split; exists []; split; [now rewrite app_nil_r | constructor].
Qed.

Lemma mkdirs_only_trans (w1 w2 w3 : world) :
  mkdirs_only w1 w2 -> mkdirs_only w2 w3 -> mkdirs_only w1 w3.
Proof.
  intros (H1 & H2 & e1 & L1 & F1) (H3 & H4 & e2 & L2 & F2).
  repeat split; try congruence.
  exists (e1 ++ e2); split.
  - rewrite L2, L1, app_assoc; reflexivity.
  - apply Forall_app; split; [assumption|].
    rewrite H1 in F2; exact F2.
Qed.

Lemma os_mkdir_only (p : path) (w : world) : mkdirs_only w (snd (os_mkdir p w)).
Proof.
  unfold os_mkdir.
  destruct p as [|a p]; [apply mkdirs_only_refl|].
  destruct (lookup (a :: p) (files w)); [apply mkdirs_only_refl|].
  destruct (match path_parent (a :: p) with
            | [] => Some Directory
            | _ :: _ => option_map i_type (lookup (path_parent (a :: p)) (files w))
            end) as [[| |]|]; try apply mkdirs_only_refl.
  repeat split; exists [(clock w, EvMkdir (a :: p))]; split; [reflexivity|].
  constructor; [split; [reflexivity | now exists (a :: p)] | constructor].
Qed.

Lemma mkdir_tolerate_only (p : path) (b : bool) (e : exn) (w : world) :
  mkdirs_only w (snd (mkdir_tolerate p b e w)).
Proof.
  unfold mkdir_tolerate, bind, get_files, raise, ret.
  destruct (negb b || _); apply mkdirs_only_refl.
Qed.

Lemma try_except_only {A} (body : M A) (handler : exn -> M A) (w : world) :
  (forall w0, mkdirs_only w0 (snd (body w0))) ->
  (forall e w0, mkdirs_only w0 (snd (handler e w0))) ->
  mkdirs_only w (snd (try_except body handler w)).
Proof.
  intros Hb Hh; unfold try_except.
  specialize (Hb w); destruct (body w) as [[a|e] w1]; cbn [snd] in *; [exact Hb|].
  eapply mkdirs_only_trans; [exact Hb | apply Hh].
Qed.

Lemma bind_only {A B} (m : M A) (k : A -> M B) (w : world) :
  (forall w0, mkdirs_only w0 (snd (m w0))) ->
  (forall a w0, mkdirs_only w0 (snd (k a w0))) ->
  mkdirs_only w (snd (bind m k w)).
Proof.
  intros Hm Hk; unfold bind.
  specialize (Hm w); destruct (m w) as [[a|e] w1]; cbn [snd] in *; [|exact Hm].
  eapply mkdirs_only_trans; [exact Hm | apply Hk].
Qed.

Lemma mkdir_from_only (n : nat) (p : path) (a b : bool) (w : world) :
  mkdirs_only w (snd (mkdir_from n p a b w)).
Proof.
  revert p a b w; induction n as [|n IH]; intros p a b w; simpl;
    apply try_except_only; try (intros; apply os_mkdir_only);
    intros e w0; destruct (has_class "FileNotFoundError" e);
    try apply mkdir_tolerate_only; try apply mkdirs_only_refl.
  destruct p as [|c p]; [apply mkdirs_only_refl|].
  destruct a; [|apply mkdirs_only_refl].
  apply bind_only; [intros; apply IH|].
  intros _ w1; apply try_except_only; [intros; apply os_mkdir_only|].
  intros e' w2; destruct (has_class "FileNotFoundError" e');
    [apply mkdirs_only_refl | apply mkdir_tolerate_only].
Qed.

Lemma mkdir_only (p : path) (a b : bool) (w : world) :
  mkdirs_only w (snd (mkdir p a b w)).
Proof. apply mkdir_from_only. Qed.

Lemma mkdirs_quiet (t : Z) (evs : list (Z * event)) :
  Forall (fun te => fst te = t /\ exists q, snd te = EvMkdir q) evs ->
  scheduled evs = [] /\ flashed evs = [] /\ extractions evs = [] /\
  served evs = [] /\ removal_times evs = [].
Proof.
  induction 1 as [|[t' e] evs [_ [q Hq]] _ IH]; simpl; [repeat split|].
  simpl in Hq; subst e; exact IH.
Qed.

(** ** The sort of the handler *)

Section SortedFacts.
Context {A : Type} (key : A -> Z).

Lemma insert_desc_in (x y : A) (l : list A) :
  In y (insert_desc key x l) <-> y = x \/ In y l.
Proof.
  induction l as [|z l IH]; simpl.
  - intuition congruence.
  - destruct (key x <? key z); simpl; rewrite ?IH; intuition congruence.
Qed.

Lemma insert_desc_perm (x : A) (l : list A) :
  Permutation (insert_desc key x l) (x :: l).
Proof.
  induction l as [|z l IH]; simpl; [reflexivity|].
  destruct (key x <? key z); [|reflexivity].
  rewrite IH; apply perm_swap.
Qed.

Lemma sorted_reverse_perm (l : list A) :
  Permutation (sorted_reverse key l) l.
Proof.
  induction l as [|x l IH]; simpl; [reflexivity|].
  rewrite insert_desc_perm; now constructor.
Qed.

Lemma insert_desc_sorted (x : A) (l : list A) :
  StronglySorted (desc key) l -> StronglySorted (desc key) (insert_desc key x l).
Proof.
  induction 1 as [|z l Hs IH Hz]; simpl.
  - repeat constructor.
  - destruct (key x <? key z) eqn:E.
    + constructor; [exact IH|].
      apply Forall_forall; intros y Hy.
      apply insert_desc_in in Hy as [-> | Hy].
      * apply Z.ltb_lt in E; unfold desc; lia.
      * rewrite Forall_forall in Hz; now apply Hz.
    + apply Z.ltb_ge in E.
      constructor; [now constructor|].
      constructor; [exact E|].
      apply Forall_forall; intros y Hy.
      rewrite Forall_forall in Hz; specialize (Hz y Hy).
      unfold desc in *; lia.
Qed.

Lemma sorted_reverse_sorted (l : list A) :
  StronglySorted (desc key) (sorted_reverse key l).
Proof.
  induction l as [|x l IH]; simpl; [constructor | now apply insert_desc_sorted].
Qed.

(** The first element of the sorted list is one of the largest. *)
Lemma sorted_reverse_head (l : list A) (x : A) (rest : list A) :
  sorted_reverse key l = x :: rest ->
  In x l /\ forall y, In y l -> key y <= key x.
Proof.
  intros H.
  pose proof (sorted_reverse_perm l) as P; rewrite H in P.
  pose proof (sorted_reverse_sorted l) as S; rewrite H in S.
  split.
  - apply (Permutation_in _ P); now left.
  - intros y Hy.
    apply (Permutation_in _ (Permutation_sym P)) in Hy as [<- | Hy]; [lia|].
    inversion S as [|? ? _ F]; subst.
    rewrite Forall_forall in F; now apply F.
Qed.

Lemma sorted_reverse_nonempty (l : list A) :
  l <> [] -> exists x rest, sorted_reverse key l = x :: rest.
Proof.
  intros Hl; destruct (sorted_reverse key l) as [|x rest] eqn:E; [|eauto].
  pose proof (sorted_reverse_perm l) as P; rewrite E in P.
  apply Permutation_nil in P; contradiction.
Qed.
End SortedFacts.

(** ** Every run that reaches the extraction tool *)

Section Run.
Variables (E : env) (f : form) (w w2 : world).

Hypothesis Hurl : url_rejected (form_url f) = false.
Hypothesis Hmk :
  mkdir (workdir_of E w) true true (snd (uuid4 E w)) = (Ok tt, w2).

Lemma run_mkdir :
  clock w2 = clock w /\ uuid_count w2 = S (uuid_count w) /\
  exists mk, log w2 = log w ++ mk /\
    Forall (fun te => fst te = clock w /\ exists q, snd te = EvMkdir q) mk.
Proof.
  pose proof (mkdir_only (workdir_of E w) true true (snd (uuid4 E w))) as H.
  rewrite Hmk in H; exact H.
Qed.

Lemma run_closed_form (r3 : outcome unit) (s3 : fs) :
  extract_info E (ydl_opts_of (form_kind f) (workdir_of E w)) (form_url f)
    (files w2) = (r3, s3) ->
  exists mk,
    Forall (fun te => fst te = clock w /\ exists q, snd te = EvMkdir q) mk /\
    log w2 = log w ++ mk /\
    download E f w =
    (Ok (run_response (workdir_of E w) r3 s3),
     after_run w (clock w + tool_seconds E f w w2) s3
       (mk ++ run_events (clock w) (clock w + tool_seconds E f w w2)
                (ydl_opts_of (form_kind f) (workdir_of E w)) (form_url f)
                (workdir_of E w) r3 s3)).
Proof.
  intros Hx.
  destruct run_mkdir as (Hc & Hu & mk & Hl & Hf).
  exists mk; split; [exact Hf|]; split; [exact Hl|].
  rewrite (download_accepted _ _ _ Hurl), Hmk.
  unfold try_except; rewrite download_body_unfold, Hx; cbn zeta.
  unfold run_response, run_events, after_run, after_tool, tool_seconds.
  destruct w2 as [s2 c2 u2 l2]; cbn [files clock uuid_count log] in *; subst.
  destruct r3 as [[]|e].
  - destruct (sorted_reverse (size_key s3) (glob_star (workdir_of E w) s3))
      as [|outfile rest].
    + unfold emit, set_files; cbn [files clock uuid_count log].
      rewrite <- !app_assoc; reflexivity.
    + rewrite send_file_unfold; cbn zeta.
      unfold emit, set_files; cbn [files clock uuid_count log].
      destruct (is_file outfile s3);
        [|destruct (path_exists outfile s3)];
        rewrite ?on_error_unfold;
        unfold emit; cbn [files clock uuid_count log];
        rewrite <- !app_assoc; reflexivity.
  - rewrite on_error_unfold.
    unfold emit, set_files; cbn [files clock uuid_count log].
    rewrite <- !app_assoc; reflexivity.
Qed.
End Run.

Lemma events_since_after_run (w : world) (t : Z) (s : fs)
    (evs : list (Z * event)) :
  events_since w (after_run w t s evs) = evs.
Proof. now apply events_since_app. Qed.

(** Reads the projections of a log that starts with directory creations. *)
Ltac quiet_prefix Hf :=
  destruct (mkdirs_quiet _ _ Hf) as (Qs & Qf & Qx & Qv & Qr);
  rewrite ?events_since_after_run, ?scheduled_app, ?flashed_app,
    ?extractions_app, ?served_app, ?removal_times_app, ?Qs, ?Qf, ?Qx, ?Qv, ?Qr;
  cbn [app].

(** ** C4: the extraction tool raises *)

(** C4.  When the extraction tool raises [e], the handler flashes
    ["Error: " + str(e)], starts one cleanup of the work directory with a
    delay of 5 seconds, and answers with a redirect to the index page;
    [send_file] is never called. *)
Theorem download_extraction_raises
    (E : env) (f : form) (w w2 : world) (e : exn) (s3 : fs) :
  url_rejected (form_url f) = false ->
  mkdir (workdir_of E w) true true (snd (uuid4 E w)) = (Ok tt, w2) ->
  extract_info E (ydl_opts_of (form_kind f) (workdir_of E w)) (form_url f)
    (files w2) = (Raise e, s3) ->
  let (r, w') := download E f w in
  r = Ok (Redirect (url_for "index")) /\
  flashed (events_since w w') = [py "Error: " ++ exc_str e] /\
  scheduled (events_since w w') = [(workdir_of E w, 5)] /\
  served (events_since w w') = [].
Proof.
  intros Hurl Hmk Hx.
  destruct (run_closed_form E f w w2 Hurl Hmk _ _ Hx) as (mk & Hf & _ & ->).
  quiet_prefix Hf; cbn; repeat split.
Qed.

(** ** C9: nothing was downloaded *)



(** ** C1: which entry is served *)

Lemma is_file_exists (p : path) (s : fs) :
  is_file p s = true -> path_exists p s = true.
Proof.
  unfold is_file, path_exists; destruct (lookup p s) as [i|]; [|discriminate].
  unfold is_type; now destruct (i_type i).
Qed.

(** What the code does in place of C1.  After the extraction tool returns,
    the handler sorts the entries of the work directory, whatever their kind, by
    decreasing size key ([st_size], or 0 for an entry that does not exist)
    and hands the first one to [send_file]; that entry has a largest key.
    It is the response attachment whenever it is a regular file, and then
    no regular file of the directory is larger; so when every entry is a
    regular file the largest file is served. *)
Theorem download_serves_first_of_sort
    (E : env) (f : form) (w w2 : world) (s3 : fs) :
  url_rejected (form_url f) = false ->
  mkdir (workdir_of E w) true true (snd (uuid4 E w)) = (Ok tt, w2) ->
  extract_info E (ydl_opts_of (form_kind f) (workdir_of E w)) (form_url f)
    (files w2) = (Ok tt, s3) ->
  glob_star (workdir_of E w) s3 <> [] ->
  exists outfile rest,
    sorted_reverse (size_key s3) (glob_star (workdir_of E w) s3)
      = outfile :: rest /\
    In outfile (glob_star (workdir_of E w) s3) /\
    (forall q, In q (glob_star (workdir_of E w) s3) ->
               size_key s3 q <= size_key s3 outfile) /\
    let (r, w') := download E f w in
    served (events_since w w') = [(path_str outfile, path_name outfile)] /\
    (is_file outfile s3 = true ->
       r = Ok (Attachment (path_str outfile) (path_name outfile)) /\
       forall q, In q (glob_star (workdir_of E w) s3) ->
                 is_file q s3 = true -> stat_size q s3 <= stat_size outfile s3) /\
    ((forall q, In q (glob_star (workdir_of E w) s3) -> is_file q s3 = true) ->
       r = Ok (Attachment (path_str outfile) (path_name outfile))).
Proof.
  intros Hurl Hmk Hx Hne.
  destruct (sorted_reverse_nonempty (size_key s3) _ Hne) as (outfile & rest & Hs).
  destruct (sorted_reverse_head _ _ _ _ Hs) as [Hin Hmax].
  exists outfile, rest; repeat (split; [assumption|]).
  destruct (run_closed_form E f w w2 Hurl Hmk _ _ Hx) as (mk & Hf & _ & ->).
  unfold run_response, run_events; rewrite Hs.
  quiet_prefix Hf.
  assert (Hserved : forall t0 t,
    served ((t0, EvExtract (ydl_opts_of (form_kind f) (workdir_of E w))
                        (form_url f)) ::
            (t, EvThread (workdir_of E w) 30) ::
            (t, EvSendFile (path_str outfile) (path_name outfile)) ::
            (if is_file outfile s3 then []
             else if path_exists outfile s3
             then [(t, EvFlash (py "Error: " ++ exc_str
                       (OSError_of "IsADirectoryError"
                          "[Errno 21] Is a directory" outfile)));
                   (t, EvThread (workdir_of E w) 5)]
             else [(t, EvFlash (py "Error: " ++ exc_str
                       (OSError_of "FileNotFoundError"
                          "[Errno 2] No such file or directory" outfile)));
                   (t, EvThread (workdir_of E w) 5)]))
    = [(path_str outfile, path_name outfile)]).
  { intros t0 t; destruct (is_file outfile s3); [reflexivity|].
    destruct (path_exists outfile s3); reflexivity. }
  split; [apply Hserved|]; split.
  - intros Hreg; rewrite Hreg; split; [reflexivity|].
    intros q Hq Hqf; specialize (Hmax q Hq); unfold size_key in Hmax.
    now rewrite (is_file_exists _ _ Hqf), (is_file_exists _ _ Hreg) in Hmax.
  - intros Hall; now rewrite (Hall outfile Hin).
Qed.

(** C1: the code does not do what its own comment says, "get the largest
    file in folder".  The tool leaves a 1500-byte file and a subdirectory;
    [glob] is not filtered, the subdirectory (size 4096) sorts first,
    [send_file] raises on it, and the handler answers with a redirect
    although the directory holds a regular file. *)
Lemma download_largest_entry_is_a_directory :
  let (r, w') :=
    download Sample.tool_subdir Sample.form_video Sample.booted in
  glob_star Sample.workdir (files w') =
    [path_div Sample.workdir (py "clip.mp4");
     path_div Sample.workdir (py "fragments")] /\
  is_file (path_div Sample.workdir (py "clip.mp4")) (files w') = true /\
  sorted_reverse (size_key (files w')) (glob_star Sample.workdir (files w')) =
    [path_div Sample.workdir (py "fragments");
     path_div Sample.workdir (py "clip.mp4")] /\
  r = Ok (Redirect (url_for "index")).
Proof. vm_compute; repeat split. Qed.

(** ** C10: every run schedules the cleanup of its work directory *)

(** C10, as the code has it.  A run that has created its work directory
    starts, before returning, a cleanup of that directory on every path:
    exactly one with a delay of 30 seconds when a file is served; exactly
    one with a delay of 5 seconds when nothing is handed to [send_file]
    (no entry found, or the extraction tool raised); and, when [send_file]
    itself raises on the selected entry, the 30-second cleanup already
    started followed by a second one with a delay of 5 seconds. *)
Theorem download_schedules_cleanup
    (E : env) (f : form) (w w2 : world) (r3 : outcome unit) (s3 : fs) :
  url_rejected (form_url f) = false ->
  mkdir (workdir_of E w) true true (snd (uuid4 E w)) = (Ok tt, w2) ->
  extract_info E (ydl_opts_of (form_kind f) (workdir_of E w)) (form_url f)
    (files w2) = (r3, s3) ->
  let (r, w') := download E f w in
  let sched := scheduled (events_since w w') in
  let wd := workdir_of E w in
  ((exists file name, r = Ok (Attachment file name) /\
                      served (events_since w w') = [(file, name)]) /\
   sched = [(wd, 30)])
  \/ (r = Ok (Redirect (url_for "index")) /\
      served (events_since w w') = [] /\
      sched = [(wd, 5)])
  \/ (r = Ok (Redirect (url_for "index")) /\
      (exists file name, served (events_since w w') = [(file, name)]) /\
      sched = [(wd, 30); (wd, 5)]).
Proof.
  intros Hurl Hmk Hx.
  destruct (run_closed_form E f w w2 Hurl Hmk _ _ Hx) as (mk & Hf & _ & ->).
  unfold run_response, run_events.
  destruct r3 as [[]|e].
  - destruct (sorted_reverse (size_key s3) (glob_star (workdir_of E w) s3))
      as [|outfile rest].
    + quiet_prefix Hf; right; left; cbn; repeat split.
    + destruct (is_file outfile s3).
      * quiet_prefix Hf; left; cbn; split; [|reflexivity].
        now exists (path_str outfile), (path_name outfile).
      * destruct (path_exists outfile s3); quiet_prefix Hf; right; right; cbn;
          (split; [reflexivity|]); (split; [|reflexivity]);
          now exists (path_str outfile), (path_name outfile).
  - quiet_prefix Hf; right; left; cbn; repeat split.
Qed.

(** C10 fails as stated: when the first entry of the sort is a
    subdirectory, [send_file] raises after the 30-second cleanup was
    started, and the [except] clause starts a second one. *)
Lemma download_schedules_two_cleanups :
  let (r, w') :=
    download Sample.tool_subdir Sample.form_video Sample.booted in
  r = Ok (Redirect (url_for "index")) /\
  scheduled (events_since Sample.booted w') =
    [(Sample.workdir, 30); (Sample.workdir, 5)].
Proof. vm_compute; split; reflexivity. Qed.

(** ** The cleanup of a served file *)

(** Whatever [cleanup_path] removes, it removes after its wait. *)
Lemma cleanup_path_removes_late (p : path) (d : Z) (w : world) :
  Forall (fun t => t = clock w + d)
         (removal_times (events_since w (snd (cleanup_path p d w)))).
Proof.
  rewrite cleanup_path_world.
  destruct (sleep_cases d w) as [-> | (e & ->)];
    [|rewrite (events_since_app w w []);
      [constructor | now rewrite app_nil_r]].
  set (w1 := {| files := files w; clock := clock w + d;
                uuid_count := uuid_count w; log := log w |}).
  destruct (path_exists p (files w)).
  - destruct (remove_path_removes p w1) as (_ & _ & _ & evs & Hl & Hf).
    rewrite (events_since_app w _ evs Hl); now apply removal_times_at.
  - rewrite (events_since_app w w1 []); [constructor | now rewrite app_nil_r].
Qed.

(** X14.  When the handler answers with an attachment, that attachment is
    the selected entry of the work directory, still in place as a regular
    file when [send_file] is called.  The log of the run shows the order of
    things: the directories made and the call of the extraction tool at
    the time the request came in, then, when the tool has ended after the
    time it took, the start of one cleanup, of the work directory, with a
    delay of 30 seconds, and the call of [send_file]; nothing is removed
    during the run.  The cleanup is thus started when the download is
    over, not before it, and whenever its thread gets to run after it was
    started, it removes nothing earlier than 30 seconds after [send_file]
    was called. *)
Theorem download_serves_before_deleting
    (E : env) (f : form) (w w' : world) (file name : pystr) :
  download E f w = (Ok (Attachment file name), w') ->
  exists outfile mk took,
    file = path_str outfile /\ name = path_name outfile /\
    In outfile (glob_star (workdir_of E w) (files w')) /\
    is_file outfile (files w') = true /\
    0 <= took /\ clock w' = clock w + took /\
    Forall (fun te => fst te = clock w /\ exists q, snd te = EvMkdir q) mk /\
    events_since w w' =
      mk ++ [ (clock w,
               EvExtract (ydl_opts_of (form_kind f) (workdir_of E w))
                 (form_url f));
              (clock w + took, EvThread (workdir_of E w) 30);
              (clock w + took, EvSendFile file name) ] /\
    served (events_since w w') = [(file, name)] /\
    removal_times (events_since w w') = [] /\
    scheduled (events_since w w') = [(workdir_of E w, 30)] /\
    forall wt, clock w + took <= clock wt ->
      Forall (fun t => clock w' + 30 <= t)
        (removal_times
           (events_since wt (snd (cleanup_path (workdir_of E w) 30 wt)))).
Proof.
  intros H.
  destruct (url_rejected (form_url f)) eqn:Hurl.
  { unfold download in H; rewrite Hurl in H; discriminate. }
  pose proof (download_accepted E f w Hurl) as Hacc.
  destruct (mkdir (workdir_of E w) true true (snd (uuid4 E w)))
    as [[[]|e] w2] eqn:Hmk; [|rewrite Hacc in H; discriminate].
  clear Hacc.
  destruct (extract_info E (ydl_opts_of (form_kind f) (workdir_of E w))
              (form_url f) (files w2)) as [r3 s3] eqn:Hx.
  destruct (run_closed_form E f w w2 Hurl Hmk _ _ Hx) as (mk & Hf & _ & Hd).
  rewrite Hd in H; clear Hd.
  unfold run_response, run_events in H.
  destruct r3 as [[]|e]; [|discriminate].
  destruct (sorted_reverse (size_key s3) (glob_star (workdir_of E w) s3))
    as [|outfile rest] eqn:Hs; [discriminate|].
  destruct (is_file outfile s3) eqn:Hreg; [|discriminate].
  injection H as <- <- <-.
  destruct (sorted_reverse_head _ _ _ _ Hs) as [Hin _].
  assert (Htook : 0 <= tool_seconds E f w w2)
    by (unfold tool_seconds; apply N2Z.is_nonneg).
  exists outfile, mk, (tool_seconds E f w w2).
  cbn [files clock after_run].
  do 4 (split; [assumption || reflexivity|]).
  split; [exact Htook|]; split; [reflexivity|]; split; [exact Hf|].
  split; [now rewrite events_since_after_run|].
  split; [quiet_prefix Hf; reflexivity|].
  split; [quiet_prefix Hf; reflexivity|].
  split; [quiet_prefix Hf; reflexivity|].
  intros wt Hwt.
  eapply Forall_impl; [|apply cleanup_path_removes_late].
  intros t Ht; cbv beta in Ht; lia.
Qed.

(** ** C2 and C6: the options object *)

(** A run calls the extraction tool at most once, with the options built
    from the [kind] field and the work directory, and the stripped URL. *)
Lemma download_extractions (E : env) (f : form) (w : world) :
  extractions (events_since w (snd (download E f w))) = [] \/
  extractions (events_since w (snd (download E f w))) =
    [(ydl_opts_of (form_kind f) (workdir_of E w), form_url f)].
Proof.
  destruct (url_rejected (form_url f)) eqn:Hurl.
  { left; unfold download; rewrite Hurl.
    unfold bind, flash, tell, ret; cbn [snd].
    now rewrite events_since_emit. }
  pose proof (download_accepted E f w Hurl) as Hacc.
  pose proof (mkdir_only (workdir_of E w) true true (snd (uuid4 E w))) as Hm.
  destruct (mkdir (workdir_of E w) true true (snd (uuid4 E w)))
    as [[[]|e] w2] eqn:Hmk.
  - destruct (extract_info E (ydl_opts_of (form_kind f) (workdir_of E w))
                (form_url f) (files w2)) as [r3 s3] eqn:Hx.
    destruct (run_closed_form E f w w2 Hurl Hmk _ _ Hx) as (mk & Hf & _ & ->).
    right; cbn [snd]; unfold run_events.
    destruct r3 as [[]|e]; [|quiet_prefix Hf; reflexivity].
    destruct (sorted_reverse (size_key s3) (glob_star (workdir_of E w) s3))
      as [|outfile rest]; [quiet_prefix Hf; reflexivity|].
    destruct (is_file outfile s3); [quiet_prefix Hf; reflexivity|].
    destruct (path_exists outfile s3); quiet_prefix Hf; reflexivity.
  - left; rewrite Hacc; cbn [snd] in *.
    destruct Hm as (_ & _ & mk & Hl & Hf).
    rewrite (events_since_app w w2 mk Hl).
    now destruct (mkdirs_quiet _ _ Hf) as (_ & _ & Qx & _).
Qed.

(** C2.  Whenever the handler calls the extraction tool, the options it
    passes are chosen by the [kind] field alone: with [kind] equal to
    "audio" they are the audio options (format "bestaudio/best", one
    FFmpegExtractAudio post-processor with codec mp3); with any other value
    of [kind], or none, they are the video options (format
    "best[ext=mp4]/best", no post-processor).  The output template, the
    only other input, names the work directory. *)
Theorem download_options_follow_kind
    (E : env) (f : form) (w : world) (o : pyval) (u : pystr) :
  In (o, u) (extractions (events_since w (snd (download E f w)))) ->
  let outtmpl :=
    path_str (path_div (workdir_of E w) (py "%(title).100s.%(ext)s")) in
  (form_get (py "kind") f = Some (py "audio") ->
     o = audio_opts outtmpl /\
     opt_get "format" o = Some (PStr (py "bestaudio/best")) /\
     opt_get "postprocessors" o =
       Some (PList [PDict [(py "key", PStr (py "FFmpegExtractAudio"));
                           (py "preferredcodec", PStr (py "mp3"));
                           (py "preferredquality", PStr (py "128"))]])) /\
  (form_get (py "kind") f <> Some (py "audio") ->
     o = video_opts outtmpl /\
     opt_get "format" o = Some (PStr (py "best[ext=mp4]/best")) /\
     opt_get "postprocessors" o = None).
Proof.
  intros Hin outtmpl.
  destruct (download_extractions E f w) as [H | H]; rewrite H in Hin;
    [contradiction|].
  destruct Hin as [Heq | []]; injection Heq as <- <-.
  unfold ydl_opts_of, form_kind; fold outtmpl; change (outtmpl_of _) with outtmpl.
  split.
  - intros ->; repeat split.
  - intros Hk; destruct (form_get (py "kind") f) as [k|].
    + destruct (pystr_eqb k (py "audio")) eqn:Ek.
      * apply pystr_eqb_eq in Ek; subst k; contradiction.
      * repeat split.
    + repeat split.
Qed.

(** C6.  Two calls of the extraction tool made for requests with the same
    [kind] and the same work directory get the same options, whatever the
    two URLs, the other fields and the two worlds are. *)
Theorem download_options_ignore_url
    (E1 E2 : env) (f1 f2 : form) (w1 w2 : world)
    (o1 o2 : pyval) (u1 u2 : pystr) :
  In (o1, u1) (extractions (events_since w1 (snd (download E1 f1 w1)))) ->
  In (o2, u2) (extractions (events_since w2 (snd (download E2 f2 w2)))) ->
  form_kind f1 = form_kind f2 ->
  workdir_of E1 w1 = workdir_of E2 w2 ->
  o1 = o2.
Proof.
  intros H1 H2 Hk Hw.
  destruct (download_extractions E1 f1 w1) as [H | H]; rewrite H in H1;
    [contradiction|].
  destruct (download_extractions E2 f2 w2) as [H' | H']; rewrite H' in H2;
    [contradiction|].
  destruct H1 as [Heq | []]; injection Heq as <- <-.
  destruct H2 as [Heq | []]; injection Heq as <- <-.
  now rewrite Hk, Hw.
Qed.

(** ** Creating a work directory under [BASE_TEMP] *)



(** * More on the handler and on the cleanup *)

(** ** [str.strip] *)

Lemma lstrip_head (s : pystr) (c : N) (t : pystr) :
  lstrip s = c :: t -> isspace c = false.
Proof.
  induction s as [|a s IH]; simpl; [discriminate|].
  destruct (isspace a) eqn:E; [exact IH|].
  intros H; injection H as <- _; exact E.
Qed.

Lemma lstrip_idem (s : pystr) : lstrip (lstrip s) = lstrip s.
Proof.
  destruct (lstrip s) as [|c t] eqn:E; [reflexivity|].
  apply lstrip_head in E; simpl; now rewrite E.
Qed.

Lemma lstrip_snoc (s : pystr) (c : N) :
  isspace c = false -> lstrip (s ++ [c]) = lstrip s ++ [c].
Proof.
  intros Hc; induction s as [|a s IH]; simpl; [now rewrite Hc|].
  destruct (isspace a); [exact IH | reflexivity].
Qed.

Lemma rstrip_cons (c : N) (s : pystr) :
  isspace c = false -> rstrip (c :: s) = c :: rstrip s.
Proof.
  intros Hc; unfold rstrip; simpl.
  now rewrite (lstrip_snoc _ _ Hc), rev_app_distr.
Qed.

Lemma rstrip_idem (s : pystr) : rstrip (rstrip s) = rstrip s.
Proof. unfold rstrip; now rewrite rev_involutive, lstrip_idem. Qed.

Lemma rstrip_last (s t : pystr) (c : N) :
  rstrip s = t ++ [c] -> isspace c = false.
Proof.
  unfold rstrip; intros H.
  apply (f_equal (@rev N)) in H; rewrite rev_involutive, rev_app_distr in H.
  simpl in H; now apply lstrip_head in H.
Qed.

(** Stripping twice is stripping once. *)
Lemma strip_idem (s : pystr) : strip (strip s) = strip s.
Proof.
  unfold strip.
  destruct (lstrip s) as [|c t] eqn:E; [reflexivity|].
  pose proof (lstrip_head _ _ _ E) as Hc.
  rewrite (rstrip_cons _ _ Hc); simpl; rewrite Hc.
  now rewrite <- (rstrip_cons _ _ Hc), rstrip_idem.
Qed.

Lemma strip_last (s t : pystr) (c : N) :
  strip s = t ++ [c] -> isspace c = false.
Proof. unfold strip; apply rstrip_last. Qed.

(** ** Path strings *)



Lemma url_accepted_scheme (u : pystr) :
  url_rejected u = false ->
  startswith u (py "http://") = true \/ startswith u (py "https://") = true.
Proof.
  unfold url_rejected; destruct u as [|c u]; [discriminate|].
  intros H; apply negb_false_iff, orb_true_iff in H; exact H.
Qed.

(** X1.  The extraction tool is only ever given the [url] field with the
    blanks around it removed: a text that stripping leaves as it is, that
    does not end in a blank, and that begins with "http://" or "https://". *)
Theorem download_passes_stripped_url
    (E : env) (f : form) (w : world) (o : pyval) (u : pystr) :
  In (o, u) (extractions (events_since w (snd (download E f w)))) ->
  u = strip (or_empty (form_get (py "url") f)) /\
  strip u = u /\
  (forall t c, u = t ++ [c] -> isspace c = false) /\
  (startswith u (py "http://") = true \/ startswith u (py "https://") = true).
Proof.
  intros Hin.
  destruct (url_rejected (form_url f)) eqn:Hurl.
  { exfalso; revert Hin; unfold download; rewrite Hurl.
    unfold bind, flash, tell, ret; cbn [snd].
    now rewrite events_since_emit. }
  destruct (download_extractions E f w) as [H | H]; rewrite H in Hin;
    [contradiction|].
  destruct Hin as [Heq | []]; injection Heq as _ <-.
  split; [reflexivity|].
  split; [apply strip_idem|].
  split; [intros t c; apply strip_last|].
  now apply url_accepted_scheme.
Qed.



(** ** [Path.mkdir] on a name that is taken, or under a parent that is not
    a directory *)

Lemma mkdir_from_step (n : nat) (p : path) (parents exist_ok : bool) (w : world)
    (i : inode) :
  p <> [] -> lookup p (files w) = Some i ->
  mkdir_from n p parents exist_ok w =
  mkdir_tolerate p exist_ok
    (OSError_of "FileExistsError" "[Errno 17] File exists" p) w.
Proof.
  intros Hp L.
  destruct p as [|a p]; [congruence|].
  destruct n; cbn [mkdir_from]; unfold try_except, os_mkdir; rewrite L;
    reflexivity.
Qed.

(** With [exist_ok=True] an existing directory is left as it is. *)
Lemma mkdir_existing_dir (p : path) (parents : bool) (w : world) :
  p <> [] -> is_dir p (files w) = true -> mkdir p parents true w = (Ok tt, w).
Proof.
  intros Hp Hd; unfold mkdir.
  pose proof Hd as Hd'; unfold is_dir in Hd'.
  destruct (lookup p (files w)) as [i|] eqn:L; [|discriminate].
  rewrite (mkdir_from_step _ _ _ _ _ i Hp L).
  unfold mkdir_tolerate, bind, get_files.
  destruct p as [|a p]; [congruence|].
  now rewrite Hd.
Qed.



Lemma path_div_nonempty (p : path) (x : pystr) : path_div p x <> [].
Proof. unfold path_div; now destruct p. Qed.




(** X5.  A work directory that is already there is used as it is
    ([exist_ok=True]): nothing is created, the extraction tool runs on the
    table as the request found it, what it leaves is the table after the
    run, and the entries the directory already held are among those the
    handler chooses from. *)
Theorem download_reuses_existing_workdir
    (E : env) (f : form) (w : world) (r3 : outcome unit) (s3 : fs) :
  url_rejected (form_url f) = false ->
  is_dir (workdir_of E w) (files w) = true ->
  extract_info E (ydl_opts_of (form_kind f) (workdir_of E w)) (form_url f)
    (files w) = (r3, s3) ->
  let (r, w') := download E f w in
  r = Ok (run_response (workdir_of E w) r3 s3) /\
  made_dirs (events_since w w') = [] /\
  files w' = s3 /\
  forall old, In old (glob_star (workdir_of E w) (files w)) ->
    (exists i, In (old, i) s3) ->
    In old (glob_star (workdir_of E w) (files w')).
Proof.
  intros Hurl Hd Hx.
  assert (Hmk : mkdir (workdir_of E w) true true (snd (uuid4 E w))
                = (Ok tt, snd (uuid4 E w))).
  { apply mkdir_existing_dir; [apply path_div_nonempty | exact Hd]. }
  destruct (run_closed_form E f w _ Hurl Hmk r3 s3 Hx) as (mk & _ & Hl & ->).
  cbn [uuid4 snd log] in Hl.
  rewrite <- (app_nil_r (log w)) in Hl at 1; apply app_inv_head in Hl; subst mk.
  split; [reflexivity|].
  rewrite events_since_after_run; cbn [app files after_run].
  split.
  { unfold run_events; cbn [made_dirs].
    destruct r3 as [[]|e]; [|reflexivity].
    destruct (sorted_reverse (size_key s3) (glob_star (workdir_of E w) s3))
      as [|outfile rest]; [reflexivity|].
    destruct (is_file outfile s3); [reflexivity|].
    destruct (path_exists outfile s3); reflexivity. }
  split; [reflexivity|].
  intros old Hold Hstill.
  apply in_glob_star in Hold as [Hc _].
  apply in_glob_star; now split.
Qed.

(** ** C7: the work directory of a request *)




(** ** Messages *)

(** X6.  A run that answers flashes exactly one message when it redirects
    and none when it sends a file. *)
Theorem download_one_message_per_redirect
    (E : env) (f : form) (w w' : world) (r : response) :
  download E f w = (Ok r, w') ->
  (r = Redirect (py "/") /\ exists m, flashed (events_since w w') = [m]) \/
  ((exists file name, r = Attachment file name) /\
   flashed (events_since w w') = []).
Proof.
  intros H.
  destruct (url_rejected (form_url f)) eqn:Hurl.
  { revert H; unfold download; rewrite Hurl.
    unfold bind, flash, tell, ret; intros H; injection H as <- <-.
    left; split; [reflexivity|].
    rewrite events_since_emit; now eexists. }
  pose proof (download_accepted E f w Hurl) as Hacc.
  destruct (mkdir (workdir_of E w) true true (snd (uuid4 E w)))
    as [[[]|e] w2] eqn:Hmk; [|rewrite Hacc in H; discriminate].
  clear Hacc.
  destruct (extract_info E (ydl_opts_of (form_kind f) (workdir_of E w))
              (form_url f) (files w2)) as [r3 s3] eqn:Hx.
  destruct (run_closed_form E f w w2 Hurl Hmk r3 s3 Hx) as (mk & Hf & _ & Hrun).
  rewrite Hrun in H; injection H as <- <-.
  unfold run_response, run_events.
  destruct r3 as [[]|e];
    [|left; split; [reflexivity|]; quiet_prefix Hf; now eexists].
  destruct (sorted_reverse (size_key s3) (glob_star (workdir_of E w) s3))
    as [|outfile rest];
    [left; split; [reflexivity|]; quiet_prefix Hf; now eexists|].
  destruct (is_file outfile s3).
  { right; split; [now eexists; eexists|]; quiet_prefix Hf; reflexivity. }
  left; split; [reflexivity|].
  destruct (path_exists outfile s3); quiet_prefix Hf; now eexists.
Qed.

(** ** Ties in the sort *)

Section SortedStable.
Context {A : Type} (key : A -> Z).

(** The head of the sorted list is the first element of the largest key:
    everything before it in the input has a smaller key, nothing after it
    a larger one. *)
Lemma sorted_reverse_head_first (l : list A) (x : A) (rest : list A) :
  sorted_reverse key l = x :: rest ->
  exists before after,
    l = before ++ x :: after /\
    (forall y, In y before -> key y < key x) /\
    (forall y, In y after -> key y <= key x).
Proof.
  revert x rest; induction l as [|a l IH]; intros x rest; [discriminate|].
  change (sorted_reverse key (a :: l))
    with (insert_desc key a (sorted_reverse key l)).
  destruct (sorted_reverse key l) as [|y r] eqn:S.
  - assert (l = []) as ->.
    { apply Permutation_nil; rewrite <- S; apply sorted_reverse_perm. }
    cbn [insert_desc]; intros H; injection H as <- _.
    exists [], []; repeat split; intros ? [].
  - destruct (IH y r eq_refl) as (b & c & -> & Hb & Hc).
    cbn [insert_desc]; destruct (key a <? key y) eqn:K.
    + intros H; injection H as <- _.
      apply Z.ltb_lt in K.
      exists (a :: b), c; repeat split; [|exact Hc].
      intros z [<- | Hz]; [exact K | now apply Hb].
    + intros H; injection H as <- _.
      apply Z.ltb_ge in K.
      exists [], (b ++ y :: c); repeat split; [intros ? []|].
      intros z Hz; apply in_app_or in Hz as [Hz | [<- | Hz]].
      * specialize (Hb z Hz); lia.
      * exact K.
      * specialize (Hc z Hz); lia.
Qed.
End SortedStable.

(** X7.  Among the entries of the work directory the handler hands to
    [send_file] the first one, in directory order, of the largest sort key:
    every entry listed before it has a strictly smaller key and none listed
    after it a larger one.  It is sent when it is a regular file; otherwise
    the request ends in the redirect. *)
Theorem download_breaks_ties_by_directory_order
    (E : env) (f : form) (w w2 : world) (s3 : fs) :
  url_rejected (form_url f) = false ->
  mkdir (workdir_of E w) true true (snd (uuid4 E w)) = (Ok tt, w2) ->
  extract_info E (ydl_opts_of (form_kind f) (workdir_of E w)) (form_url f)
    (files w2) = (Ok tt, s3) ->
  glob_star (workdir_of E w) s3 <> [] ->
  exists before outfile after,
    glob_star (workdir_of E w) s3 = before ++ outfile :: after /\
    (forall q, In q before -> size_key s3 q < size_key s3 outfile) /\
    (forall q, In q after -> size_key s3 q <= size_key s3 outfile) /\
    served (events_since w (snd (download E f w))) =
      [(path_str outfile, path_name outfile)] /\
    fst (download E f w) =
      Ok (if is_file outfile s3
          then Attachment (path_str outfile) (path_name outfile)
          else Redirect (py "/")).
Proof.
  intros Hurl Hmk Hx Hne.
  destruct (sorted_reverse_nonempty (size_key s3) _ Hne) as (outfile & rest & S).
  destruct (sorted_reverse_head_first (size_key s3) _ _ _ S)
    as (before & after & Hg & Hb & Ha).
  exists before, outfile, after.
  split; [exact Hg|]; split; [exact Hb|]; split; [exact Ha|].
  destruct (run_closed_form E f w w2 Hurl Hmk _ _ Hx) as (mk & Hf & _ & ->).
  cbn [fst snd]; unfold run_response, run_events; rewrite S.
  split; [|now destruct (is_file outfile s3)].
  destruct (is_file outfile s3); [quiet_prefix Hf; reflexivity|].
  destruct (path_exists outfile s3); quiet_prefix Hf; reflexivity.
Qed.

(** X8.  An entry that does not exist (a link whose target is gone) counts
    for size 0 in the sort, so it is never preferred to an entry that exists
    and is not empty: when the work directory holds such an entry, the entry
    handed to [send_file] exists, and the request ends in the attachment or
    the entry is a directory. *)
Theorem download_prefers_existing_entries
    (E : env) (f : form) (w w2 : world) (s3 : fs) (q : path) :
  url_rejected (form_url f) = false ->
  mkdir (workdir_of E w) true true (snd (uuid4 E w)) = (Ok tt, w2) ->
  extract_info E (ydl_opts_of (form_kind f) (workdir_of E w)) (form_url f)
    (files w2) = (Ok tt, s3) ->
  In q (glob_star (workdir_of E w) s3) ->
  path_exists q s3 = true -> 0 < stat_size q s3 ->
  exists outfile,
    In outfile (glob_star (workdir_of E w) s3) /\
    served (events_since w (snd (download E f w))) =
      [(path_str outfile, path_name outfile)] /\
    path_exists outfile s3 = true /\
    stat_size q s3 <= stat_size outfile s3 /\
    (fst (download E f w) =
       Ok (Attachment (path_str outfile) (path_name outfile)) \/
     is_dir outfile s3 = true).
Proof.
  intros Hurl Hmk Hx Hq Hex Hpos.
  assert (Hne : glob_star (workdir_of E w) s3 <> []) by (intros E0; now rewrite E0 in Hq).
  destruct (sorted_reverse_nonempty (size_key s3) _ Hne) as (outfile & rest & S).
  destruct (sorted_reverse_head (size_key s3) _ _ _ S) as (Hin & Hmax).
  specialize (Hmax q Hq).
  assert (Hkq : size_key s3 q = stat_size q s3) by (unfold size_key; now rewrite Hex).
  assert (Hout : path_exists outfile s3 = true).
  { destruct (path_exists outfile s3) eqn:X; [reflexivity|].
    unfold size_key at 2 in Hmax; rewrite X in Hmax; lia. }
  exists outfile; split; [exact Hin|].
  destruct (run_closed_form E f w w2 Hurl Hmk _ _ Hx) as (mk & Hf & _ & ->).
  cbn [fst snd]; unfold run_response, run_events; rewrite S, Hout.
  split.
  { destruct (is_file outfile s3); quiet_prefix Hf; reflexivity. }
  split; [reflexivity|].
  split.
  { unfold size_key in Hmax; rewrite Hex, Hout in Hmax; exact Hmax. }
  destruct (is_file outfile s3) eqn:F; [now left | right].
  unfold path_exists in Hout; unfold is_file in F; unfold is_dir.
  destruct (lookup outfile s3) as [i|]; [|discriminate].
  unfold is_type in *; now destruct (i_type i).
Qed.

(** ** What a removal leaves alone *)

Lemma shrinks_refl (p : path) (s : fs) : shrinks_below p s s.
Proof. now split. Qed.

Lemma shrinks_trans (p : path) (s1 s2 s3 : fs) :
  shrinks_below p s1 s2 -> shrinks_below p s2 s3 -> shrinks_below p s1 s3.
Proof.
  intros [A1 B1] [A2 B2]; split.
  - intros q i H; now apply A1, A2.
  - intros q H; now rewrite B2, B1.
Qed.

Lemma shrinks_weaken (p c : path) (s s' : fs) :
  path_under p c = true -> shrinks_below c s s' -> shrinks_below p s s'.
Proof.
  intros Hpc [A B]; split; [exact A|].
  intros q Hq; apply B.
  destruct (path_under c q) eqn:Hcq; [|reflexivity].
  now rewrite (path_under_trans _ _ _ Hpc Hcq) in Hq.
Qed.

Lemma shrinks_drop (c : path) (s : fs) : shrinks_below c s (drop_entry c s).
Proof.
  split.
  - intros q i H; unfold drop_entry in H; now apply filter_In in H as [H _].
  - intros q Hq; apply lookup_drop_entry_other.
    intros ->; now rewrite path_under_refl in Hq.
Qed.

Lemma unlink_shrinks (c : path) (w : world) :
  shrinks_below c (files w) (files (snd (unlink c w))).
Proof.
  unfold unlink; destruct (lookup c (files w)) as [i|]; simpl;
    [|apply shrinks_refl].
  destruct (is_type Directory i); simpl; [apply shrinks_refl|].
  destruct (immutable i); simpl; [apply shrinks_refl | apply shrinks_drop].
Qed.

Lemma rmdir_shrinks (c : path) (w : world) :
  shrinks_below c (files w) (files (snd (rmdir c w))).
Proof.
  unfold rmdir; destruct (lookup c (files w)) as [i|]; simpl;
    [|apply shrinks_refl].
  destruct (negb (is_type Directory i)); simpl; [apply shrinks_refl|].
  destruct (glob_star c (files w)); simpl; [|apply shrinks_refl].
  destruct (immutable i); simpl; [apply shrinks_refl | apply shrinks_drop].
Qed.

Lemma for_each_shrinks {A} (p : path) (xs : list A) (body : A -> M unit)
    (w : world) :
  (forall a w0, In a xs ->
     shrinks_below p (files w0) (files (snd (body a w0)))) ->
  shrinks_below p (files w) (files (snd (for_each xs body w))).
Proof.
  revert w; induction xs as [|x xs IH]; intros w Hb; cbn [for_each].
  - apply shrinks_refl.
  - unfold bind.
    pose proof (Hb x w (or_introl eq_refl)) as Hx.
    destruct (body x w) as [[[]|e] w1]; cbn [snd] in *; [|exact Hx].
    apply shrinks_trans with (files w1); [exact Hx|].
    apply IH; intros a w0 Ha; apply Hb; now right.
Qed.

Lemma rmtree_walk_shrinks (depth : nat) (c : path) (w : world) :
  shrinks_below c (files w) (files (snd (rmtree_walk depth c w))).
Proof.
  revert c w; induction depth as [|d IH]; intros c w; cbn [rmtree_walk].
  - apply rmdir_shrinks.
  - unfold bind at 1; unfold bind at 1.
    assert (Hloop : shrinks_below c (files w)
              (files (snd (for_each (glob_star c (files w))
                 (fun x => s <- get_files ;;
                           if is_dir x s then rmtree_walk d x else unlink x) w)))).
    { apply for_each_shrinks; intros x w0 Hx.
      apply in_glob_star in Hx as [Hx _].
      apply child_facts in Hx as (_ & Hx & _).
      apply (shrinks_weaken c x); [exact Hx|].
      unfold bind, get_files.
      destruct (is_dir x (files w0)); [apply IH | apply unlink_shrinks]. }
    destruct (for_each (glob_star c (files w)) _ w) as [[[]|e] w1];
      cbn [snd] in *; [|exact Hloop].
    apply shrinks_trans with (files w1); [exact Hloop | apply rmdir_shrinks].
Qed.

Lemma remove_path_shrinks (p : path) (w : world) :
  shrinks_below p (files w) (files (snd (remove_path p w))).
Proof.
  unfold remove_path, bind, get_files.
  destruct (is_file p (files w)); [apply unlink_shrinks|].
  unfold rmtree; destruct (lookup p (files w)) as [i|]; simpl;
    [|apply shrinks_refl].
  destruct (negb (is_type Directory i)); simpl;
    [apply shrinks_refl | apply rmtree_walk_shrinks].
Qed.

(** X9.  Whatever the delay, whatever the table and however the removal
    ends (also when it fails half way and the error is swallowed),
    [cleanup_path] creates and alters no entry, and every path that is not
    the target or below it is left exactly as it was. *)
Theorem cleanup_path_touches_only_its_target (p : path) (d : Z) (w : world) :
  let s' := files (snd (cleanup_path p d w)) in
  (forall q i, In (q, i) s' -> In (q, i) (files w)) /\
  (forall q, path_under p q = false -> lookup q s' = lookup q (files w)).
Proof.
  cbv zeta; fold (shrinks_below p (files w) (files (snd (cleanup_path p d w)))).
  rewrite cleanup_path_world.
  destruct (sleep_cases d w) as [-> | (e & ->)]; [|apply shrinks_refl].
  destruct (path_exists p (files w)); [|apply shrinks_refl].
  exact (remove_path_shrinks p
           {| files := files w; clock := clock w + d;
              uuid_count := uuid_count w; log := log w |}).
Qed.

(** ** A request and its cleanup *)

Lemma cleanup_path_files_absent (p : path) (d : Z) (w : world) :
  path_exists p (files w) = false ->
  files (snd (cleanup_path p d w)) = files w.
Proof.
  intros Hex; rewrite cleanup_path_world.
  destruct (sleep_cases d w) as [-> | (e & ->)]; [|reflexivity].
  now rewrite Hex.
Qed.

Lemma cleanup_path_files_ok (p : path) (d : Z) (w : world) :
  0 <= d <= sleep_max -> wf_fs (files w) -> path_exists p (files w) = true ->
  removable p (files w) ->
  files (snd (cleanup_path p d w)) = prune p (files w).
Proof.
  intros Hd Hwf Hex Hrm; rewrite cleanup_path_world, (sleep_ok _ _ Hd), Hex.
  set (w1 := {| files := files w; clock := clock w + d;
                uuid_count := uuid_count w; log := log w |}).
  destruct (remove_path_ok p w1 Hwf Hex Hrm) as (w2 & H & Hf).
  now rewrite H.
Qed.

Lemma path_exists_prune (p : path) (s : fs) : path_exists p (prune p s) = false.
Proof.
  unfold path_exists, prune; rewrite lookup_keep.
  now rewrite path_under_refl.
Qed.

(** The cleanups a run starts are for its work directory, after 5 or 30
    seconds, and there is at least one. *)
Lemma run_events_scheduled (t0 t : Z) (opts : pyval) (url : pystr) (wd : path)
    (r3 : outcome unit) (s3 : fs) :
  scheduled (run_events t0 t opts url wd r3 s3) <> [] /\
  forall p d, In (p, d) (scheduled (run_events t0 t opts url wd r3 s3)) ->
    p = wd /\ (d = 5 \/ d = 30).
Proof.
  unfold run_events; cbn [scheduled].
  destruct r3 as [[]|e].
  - destruct (sorted_reverse (size_key s3) (glob_star wd s3)) as [|outfile rest];
      cbn [scheduled].
    + split; [discriminate|].
      intros p d [H | []]; injection H as <- <-; auto.
    + split; [discriminate|].
      destruct (is_file outfile s3); [|destruct (path_exists outfile s3)];
        cbn [scheduled]; intros p d H;
        repeat (destruct H as [H | H]; [injection H as <- <-; auto|]);
        destruct H.
  - split; [discriminate|].
    intros p d [H | []]; injection H as <- <-; auto.
Qed.

(** X12.  A request and the cleanup it starts undo each other on the
    filesystem.  When the extraction tool has changed nothing outside the
    work directory, leaves a well-formed tree in which nothing of the work
    directory refuses removal, then the run starts at least one cleanup,
    each cleanup it starts brings the table back to what the request found,
    and any further one changes nothing. *)
Theorem download_then_cleanup_restores_table
    (E : env) (f : form) (w w2 : world) (r3 : outcome unit) (s3 : fs) :
  url_rejected (form_url f) = false ->
  mkdir (workdir_of E w) true true (snd (uuid4 E w)) = (Ok tt, w2) ->
  extract_info E (ydl_opts_of (form_kind f) (workdir_of E w)) (form_url f)
    (files w2) = (r3, s3) ->
  wf_fs s3 -> removable (workdir_of E w) s3 ->
  path_exists (workdir_of E w) s3 = true ->
  prune (workdir_of E w) s3 = files w ->
  let w' := snd (download E f w) in
  scheduled (events_since w w') <> [] /\
  forall p d, In (p, d) (scheduled (events_since w w')) ->
    files (snd (cleanup_path p d w')) = files w /\
    forall p' d', In (p', d') (scheduled (events_since w w')) ->
      files (snd (cleanup_path p' d' (snd (cleanup_path p d w')))) = files w.
Proof.
  intros Hurl Hmk Hx Hwf Hrm Hex Hout; cbv zeta.
  destruct (run_closed_form E f w w2 Hurl Hmk r3 s3 Hx) as (mk & Hf & _ & ->).
  cbn [snd]; rewrite events_since_after_run, scheduled_app.
  destruct (mkdirs_quiet _ _ Hf) as (-> & _); cbn [app].
  destruct (run_events_scheduled (clock w) (clock w + tool_seconds E f w w2)
              (ydl_opts_of (form_kind f) (workdir_of E w)) (form_url f)
              (workdir_of E w) r3 s3) as (Hne & Hall).
  split; [exact Hne|].
  intros p d Hpd; destruct (Hall p d Hpd) as (-> & Hd).
  assert (H1 : files (snd (cleanup_path (workdir_of E w) d
                 (after_run w (clock w + tool_seconds E f w w2) s3
                    (mk ++ run_events (clock w)
                       (clock w + tool_seconds E f w w2)
                       (ydl_opts_of (form_kind f) (workdir_of E w)) (form_url f)
                       (workdir_of E w) r3 s3)))) = files w).
  { rewrite cleanup_path_files_ok; cbn [files after_run]; auto.
    unfold sleep_max; destruct Hd; lia. }
  split; [exact H1|].
  intros p' d' Hpd'; destruct (Hall p' d' Hpd') as (-> & _).
  rewrite cleanup_path_files_absent; [exact H1|].
  rewrite H1, <- Hout; apply path_exists_prune.
Qed.

(** ** Requests side by side *)

Lemma workdirs_apart (uid uid' : pystr) (q : path) :
  uid <> uid' -> path_under (path_div BASE_TEMP uid') q = true ->
  path_under (path_div BASE_TEMP uid) q = false.
Proof.
  intros Hne Hq.
  destruct (path_under (path_div BASE_TEMP uid) q) eqn:H; [|reflexivity].
  apply path_under_spec in Hq as [r ->].
  apply path_under_spec in H as [r' H].
  unfold path_div, BASE_TEMP in H; cbn [app] in H.
  injection H as H _; congruence.
Qed.

(** X13.  The cleanup of one request leaves the work directory of every
    other request alone, and [downloads_temp] itself: whatever lies at or
    below a work directory of another name is found exactly as it was,
    whatever the delay and however the removal ends. *)
Theorem cleanup_spares_other_workdirs
    (uid uid' : pystr) (d : Z) (w : world) (q : path) :
  uid <> uid' ->
  q = BASE_TEMP \/ path_under (path_div BASE_TEMP uid') q = true ->
  lookup q (files (snd (cleanup_path (path_div BASE_TEMP uid) d w))) =
  lookup q (files w).
Proof.
  intros Hne Hq.
  assert (Hout : path_under (path_div BASE_TEMP uid) q = false).
  { destruct Hq as [-> | Hq]; [reflexivity|].
    now apply (workdirs_apart uid uid'). }
  rewrite cleanup_path_world.
  destruct (sleep_cases d w) as [-> | (e & ->)]; [|reflexivity].
  destruct (path_exists (path_div BASE_TEMP uid) (files w)); [|reflexivity].
  now apply (remove_path_shrinks (path_div BASE_TEMP uid)
               {| files := files w; clock := clock w + d;
                  uuid_count := uuid_count w; log := log w |}).
Qed.

(** ** Checking a table by computation: soundness *)

Lemma nodup_paths_sound (l : list path) : nodup_paths l = true -> NoDup l.
Proof.
  induction l as [|p l IH]; cbn [nodup_paths]; intros H; constructor;
    apply andb_true_iff in H as [H1 H2]; [|now apply IH].
  intros Hin; apply negb_true_iff in H1.
  assert (existsb (path_eqb p) l = true); [|congruence].
  apply existsb_exists; exists p; split; [exact Hin | apply path_eqb_refl].
Qed.

Lemma wf_fsb_sound (s : fs) : wf_fsb s = true -> wf_fs s.
Proof.
  unfold wf_fsb, wf_fs; intros H; apply andb_true_iff in H as [H1 H2].
  split; [now apply nodup_paths_sound|].
  intros q i Hin; rewrite forallb_forall in H2.
  specialize (H2 _ Hin); cbn [fst] in H2.
  destruct q as [|a q]; [discriminate|].
  split; [discriminate|].
  destruct (path_parent (a :: q)); [congruence | intros _; exact H2].
Qed.

Lemma removableb_sound (p : path) (s : fs) :
  removableb p s = true -> removable p s.
Proof.
  unfold removableb, removable; intros H q i Hin Hu.
  rewrite forallb_forall in H; specialize (H _ Hin); cbn [fst snd] in H.
  rewrite Hu in H; cbn [negb orb] in H; now apply negb_true_iff in H.
Qed.

(** * Sample runs of the theorems *)

Lemma download_rejects_invalid_url_witness :
  startswith (strip (or_empty (form_get (py "url") Sample.form_ftp)))
    (py "http://") = false /\
  startswith (strip (or_empty (form_get (py "url") Sample.form_ftp)))
    (py "https://") = false /\
  fst (download Sample.tool_three_files Sample.form_ftp Sample.booted) =
    Ok (Redirect (py "/")) /\
  files (snd (download Sample.tool_three_files Sample.form_ftp Sample.booted)) =
    files Sample.booted.
Proof.
  assert (H1 : startswith (strip (or_empty (form_get (py "url") Sample.form_ftp)))
                 (py "http://") = false) by reflexivity.
  assert (H2 : startswith (strip (or_empty (form_get (py "url") Sample.form_ftp)))
                 (py "https://") = false) by reflexivity.
  split; [exact H1|]; split; [exact H2|].
  pose proof (download_rejects_invalid_url Sample.tool_three_files
                Sample.form_ftp Sample.booted (or_intror (conj H1 H2))) as H.
  destruct (download Sample.tool_three_files Sample.form_ftp Sample.booted)
    as [r w'].
  destruct H as (Hr & _ & _ & _ & Hfs & _); split; [exact Hr | exact Hfs].
Defined.

(** C3 fails as stated: [time.sleep] and [path.exists()] stand outside the
    [try].  With the delay of 5 seconds that the handler passes, on a work
    directory under a [downloads_temp] that may not be searched, the
    existence test raises [PermissionError], a filesystem error, and the
    exception leaves [cleanup_path] after the wait; and with a delay that is
    negative, or too large, [time.sleep] itself raises. *)
Lemma cleanup_path_lets_errors_out :
  cleanup_path_under Cases.unsearchable Sample.workdir 5 Sample.served_world =
    (Raise (OSError_of "PermissionError" "[Errno 13] Permission denied"
              Sample.workdir),
     {| files := files Sample.served_world;
        clock := clock Sample.served_world + 5;
        uuid_count := uuid_count Sample.served_world;
        log := log Sample.served_world |}) /\
  cleanup_path Sample.workdir (-1) Sample.served_world =
    (Raise {| exc_class := py "ValueError";
              exc_str := py "sleep length must be non-negative" |},
     Sample.served_world) /\
  cleanup_path Sample.workdir 100000000000000000000 Sample.served_world =
    (Raise {| exc_class := py "OverflowError";
              exc_str := py "timestamp too large to convert to C _PyTime_t" |},
     Sample.served_world).
Proof. repeat split. Qed.

Lemma cleanup_path_waits_then_removes_witness :
  exists w',
    cleanup_path Sample.workdir 30 Sample.served_world = (Ok tt, w') /\
    clock w' = clock Sample.served_world + 30 /\
    path_exists Sample.workdir (files w') = false.
Proof.
  pose proof (cleanup_path_waits_then_removes no_fault Sample.workdir 30
                Sample.served_world) as H.
  rewrite sleep_ok in H by (unfold sleep_max; lia).
  cbv beta iota delta [no_fault] in H.
  destruct H as (_ & _ & _ & w' & Hrun & Hclock & _ & _ & Hrm).
  rewrite cleanup_path_no_fault in Hrun.
  exists w'; split; [exact Hrun|]; split; [exact Hclock|].
  assert (Hex : path_exists Sample.workdir (files Sample.served_world) = true)
    by (vm_compute; reflexivity).
  destruct (Hrm Hex) as (_ & Hgone & _); apply Hgone.
  vm_compute; reflexivity.
Defined.

(** An error of the removal is swallowed: one entry of the directory cannot
    be removed, [cleanup_path] returns all the same and the directory stays,
    without the entry that was unlinked before the walk stopped. *)
Example cleanup_path_swallows_removal_error :
  exists w',
    cleanup_path Sample.workdir 5 Sample.pinned_tree = (Ok tt, w') /\
    clock w' = 2005 /\
    path_exists Sample.workdir (files w') = true /\
    glob_star Sample.workdir (files w') =
      [path_div Sample.workdir (py "b.part")].
Proof. eexists; vm_compute; repeat split. Qed.

Lemma download_extraction_raises_witness :
  url_rejected (form_url Sample.form_audio) = false /\
  mkdir (workdir_of Sample.tool_raises Sample.booted) true true
    (snd (uuid4 Sample.tool_raises Sample.booted)) = (Ok tt, Sample.ready) /\
  extract_info Sample.tool_raises
    (ydl_opts_of (form_kind Sample.form_audio)
       (workdir_of Sample.tool_raises Sample.booted))
    (form_url Sample.form_audio) (files Sample.ready)
    = (Raise Sample.unsupported, files Sample.ready) /\
  flashed (events_since Sample.booted
             (snd (download Sample.tool_raises Sample.form_audio Sample.booted)))
    = [py "Error: " ++ exc_str Sample.unsupported].
Proof.
  assert (H1 : url_rejected (form_url Sample.form_audio) = false)
    by (vm_compute; reflexivity).
  assert (H2 : mkdir (workdir_of Sample.tool_raises Sample.booted) true true
                 (snd (uuid4 Sample.tool_raises Sample.booted))
               = (Ok tt, Sample.ready)) by (vm_compute; reflexivity).
  assert (H3 : extract_info Sample.tool_raises
                 (ydl_opts_of (form_kind Sample.form_audio)
                    (workdir_of Sample.tool_raises Sample.booted))
                 (form_url Sample.form_audio) (files Sample.ready)
               = (Raise Sample.unsupported, files Sample.ready))
    by reflexivity.
  split; [exact H1|]; split; [exact H2|]; split; [exact H3|].
  pose proof (download_extraction_raises _ _ _ _ _ _ H1 H2 H3) as H.
  destruct (download Sample.tool_raises Sample.form_audio Sample.booted)
    as [r w'].
  destruct H as (_ & Hfl & _); exact Hfl.
Defined.


Lemma download_serves_first_of_sort_witness :
  url_rejected (form_url Sample.form_audio) = false /\
  mkdir (workdir_of Sample.tool_three_files Sample.booted) true true
    (snd (uuid4 Sample.tool_three_files Sample.booted))
    = (Ok tt, Sample.ready) /\
  extract_info Sample.tool_three_files
    (ydl_opts_of (form_kind Sample.form_audio)
       (workdir_of Sample.tool_three_files Sample.booted))
    (form_url Sample.form_audio) (files Sample.ready)
    = (Ok tt, files Sample.served_world) /\
  glob_star (workdir_of Sample.tool_three_files Sample.booted)
    (files Sample.served_world) <> [] /\
  exists outfile rest,
    sorted_reverse (size_key (files Sample.served_world))
      (glob_star (workdir_of Sample.tool_three_files Sample.booted)
         (files Sample.served_world)) = outfile :: rest /\
    outfile = path_div Sample.workdir (py "clip.mp4") /\
    fst (download Sample.tool_three_files Sample.form_audio Sample.booted) =
      Ok (Attachment (path_str outfile) (py "clip.mp4")).
Proof.
  assert (H1 : url_rejected (form_url Sample.form_audio) = false)
    by (vm_compute; reflexivity).
  assert (H2 : mkdir (workdir_of Sample.tool_three_files Sample.booted) true true
                 (snd (uuid4 Sample.tool_three_files Sample.booted))
               = (Ok tt, Sample.ready)) by (vm_compute; reflexivity).
  assert (H3 : extract_info Sample.tool_three_files
                 (ydl_opts_of (form_kind Sample.form_audio)
                    (workdir_of Sample.tool_three_files Sample.booted))
                 (form_url Sample.form_audio) (files Sample.ready)
               = (Ok tt, files Sample.served_world))
    by (vm_compute; reflexivity).
  assert (H4 : glob_star (workdir_of Sample.tool_three_files Sample.booted)
                 (files Sample.served_world) <> [])
    by (vm_compute; discriminate).
  split; [exact H1|]; split; [exact H2|]; split; [exact H3|];
    split; [exact H4|].
  destruct (download_serves_first_of_sort _ _ _ _ _ H1 H2 H3 H4)
    as (outfile & rest & Hs & _ & _ & H).
  exists outfile, rest; split; [exact Hs|].
  assert (Ho : outfile = path_div Sample.workdir (py "clip.mp4")).
  { vm_compute in Hs; injection Hs as <- _; reflexivity. }
  split; [exact Ho|].
  destruct (download Sample.tool_three_files Sample.form_audio Sample.booted)
    as [r w'].
  destruct H as (_ & Hreg & _).
  destruct Hreg as [Hr _]; [subst outfile; vm_compute; reflexivity|].
  cbn [fst]; rewrite Hr; subst outfile; reflexivity.
Defined.

Lemma download_schedules_cleanup_witness :
  url_rejected (form_url Sample.form_audio) = false /\
  mkdir (workdir_of Sample.tool_three_files Sample.booted) true true
    (snd (uuid4 Sample.tool_three_files Sample.booted))
    = (Ok tt, Sample.ready) /\
  extract_info Sample.tool_three_files
    (ydl_opts_of (form_kind Sample.form_audio)
       (workdir_of Sample.tool_three_files Sample.booted))
    (form_url Sample.form_audio) (files Sample.ready)
    = (Ok tt, files Sample.served_world) /\
  scheduled (events_since Sample.booted Sample.served_world)
    = [(Sample.workdir, 30)].
Proof.
  assert (H1 : url_rejected (form_url Sample.form_audio) = false)
    by (vm_compute; reflexivity).
  assert (H2 : mkdir (workdir_of Sample.tool_three_files Sample.booted) true true
                 (snd (uuid4 Sample.tool_three_files Sample.booted))
               = (Ok tt, Sample.ready)) by (vm_compute; reflexivity).
  assert (H3 : extract_info Sample.tool_three_files
                 (ydl_opts_of (form_kind Sample.form_audio)
                    (workdir_of Sample.tool_three_files Sample.booted))
                 (form_url Sample.form_audio) (files Sample.ready)
               = (Ok tt, files Sample.served_world))
    by (vm_compute; reflexivity).
  split; [exact H1|]; split; [exact H2|]; split; [exact H3|].
  pose proof (download_schedules_cleanup _ _ _ _ _ _ H1 H2 H3) as H.
  unfold Sample.served_world.
  destruct (download Sample.tool_three_files Sample.form_audio Sample.booted)
    as [r w'] eqn:Hd.
  cbn [snd]; cbv zeta in H.
  destruct H as [[_ Hs] | [(Hr & _) | (Hr & _)]]; [exact Hs| |];
    exfalso; vm_compute in Hd; rewrite Hr in Hd; discriminate.
Defined.

Lemma download_serves_before_deleting_witness :
  download Sample.tool_three_files Sample.form_audio Sample.booted =
    (Ok (Attachment (path_str (path_div Sample.workdir (py "clip.mp4")))
           (py "clip.mp4")), Sample.served_world) /\
  scheduled (events_since Sample.booted Sample.served_world) =
    [(Sample.workdir, 30)] /\
  Forall (fun t => clock Sample.served_world + 30 <= t)
    (removal_times
       (events_since Sample.served_world
          (snd (cleanup_path Sample.workdir 30 Sample.served_world)))) /\
  removal_times
    (events_since Sample.served_world
       (snd (cleanup_path Sample.workdir 30 Sample.served_world))) =
    [1072; 1072; 1072; 1072].
Proof.
  assert (H0 : download Sample.tool_three_files Sample.form_audio Sample.booted =
               (Ok (Attachment
                      (path_str (path_div Sample.workdir (py "clip.mp4")))
                      (py "clip.mp4")), Sample.served_world))
    by (vm_compute; reflexivity).
  split; [exact H0|].
  destruct (download_serves_before_deleting _ _ _ _ _ _ H0)
    as (outfile & mk & took & _ & _ & _ & _ & _ & Hclock & _ & _ & _ & _
        & Hs & Hlate).
  split; [exact Hs|]; split; [|vm_compute; reflexivity].
  apply (Hlate Sample.served_world); lia.
Defined.

Lemma download_options_follow_kind_witness :
  In (audio_opts (outtmpl_of Sample.workdir), py "https://example.com/watch?v=1")
     (extractions
        (events_since Sample.booted
           (snd (download Sample.tool_three_files Sample.form_audio
                   Sample.booted)))) /\
  opt_get "format" (audio_opts (outtmpl_of Sample.workdir)) =
    Some (PStr (py "bestaudio/best")).
Proof.
  assert (H0 : In (audio_opts (outtmpl_of Sample.workdir),
                   py "https://example.com/watch?v=1")
                  (extractions
                     (events_since Sample.booted
                        (snd (download Sample.tool_three_files
                                Sample.form_audio Sample.booted)))))
    by (vm_compute; left; reflexivity).
  split; [exact H0|].
  pose proof (download_options_follow_kind _ _ _ _ _ H0) as H.
  cbv zeta in H; destruct H as [Ha _].
  destruct Ha as (_ & Hfmt & _); [reflexivity | exact Hfmt].
Defined.

Lemma download_options_ignore_url_witness :
  In (video_opts (outtmpl_of Sample.workdir), py "https://example.com/watch?v=2")
     (extractions
        (events_since Sample.booted
           (snd (download Sample.tool_three_files Sample.form_video
                   Sample.booted)))) /\
  In (video_opts (outtmpl_of Sample.workdir), py "http://example.com/b")
     (extractions
        (events_since Sample.booted
           (snd (download Sample.tool_raises Sample.form_other
                   Sample.booted)))) /\
  form_kind Sample.form_video = form_kind Sample.form_other /\
  workdir_of Sample.tool_three_files Sample.booted =
    workdir_of Sample.tool_raises Sample.booted /\
  video_opts (outtmpl_of Sample.workdir) = video_opts (outtmpl_of Sample.workdir).
Proof.
  assert (H1 : In (video_opts (outtmpl_of Sample.workdir),
                   py "https://example.com/watch?v=2")
                  (extractions
                     (events_since Sample.booted
                        (snd (download Sample.tool_three_files
                                Sample.form_video Sample.booted)))))
    by (vm_compute; left; reflexivity).
  assert (H2 : In (video_opts (outtmpl_of Sample.workdir),
                   py "http://example.com/b")
                  (extractions
                     (events_since Sample.booted
                        (snd (download Sample.tool_raises
                                Sample.form_other Sample.booted)))))
    by (vm_compute; left; reflexivity).
  assert (H3 : form_kind Sample.form_video = form_kind Sample.form_other)
    by reflexivity.
  assert (H4 : workdir_of Sample.tool_three_files Sample.booted =
               workdir_of Sample.tool_raises Sample.booted) by reflexivity.
  split; [exact H1|]; split; [exact H2|]; split; [exact H3|];
    split; [exact H4|].
  exact (download_options_ignore_url _ _ _ _ _ _ _ _ _ _ H1 H2 H3 H4).
Defined.


Lemma download_passes_stripped_url_witness :
  In (ydl_opts_of (py "audio") Sample.workdir, py "https://example.com/watch?v=1")
     (extractions (events_since Sample.booted
        (snd (download Sample.tool_three_files Sample.form_audio Sample.booted)))) /\
  strip (py "https://example.com/watch?v=1") = py "https://example.com/watch?v=1".
Proof.
  assert (H : In (ydl_opts_of (py "audio") Sample.workdir,
                  py "https://example.com/watch?v=1")
                (extractions (events_since Sample.booted
                   (snd (download Sample.tool_three_files Sample.form_audio
                           Sample.booted)))))
    by (vm_compute; left; reflexivity).
  split; [exact H|].
  exact (proj1 (proj2 (download_passes_stripped_url _ _ _ _ _ H))).
Defined.



Lemma download_reuses_existing_workdir_witness :
  url_rejected (form_url Sample.form_video) = false /\
  is_dir (workdir_of Sample.tool_three_files Cases.reused) (files Cases.reused)
    = true /\
  fst (download Sample.tool_three_files Sample.form_video Cases.reused) =
    Ok (Attachment
          (path_str (path_div Sample.workdir (py "old.mp4"))) (py "old.mp4")).
Proof.
  assert (H1 : url_rejected (form_url Sample.form_video) = false)
    by (vm_compute; reflexivity).
  assert (H2 : is_dir (workdir_of Sample.tool_three_files Cases.reused)
                 (files Cases.reused) = true) by (vm_compute; reflexivity).
  split; [exact H1|]; split; [exact H2|].
  pose proof (download_reuses_existing_workdir Sample.tool_three_files
                Sample.form_video Cases.reused _ _ H1 H2 eq_refl) as H.
  destruct (download Sample.tool_three_files Sample.form_video Cases.reused)
    as [r w'].
  destruct H as (-> & _); vm_compute; reflexivity.
Defined.

Lemma download_one_message_per_redirect_witness :
  exists w',
    download Sample.tool_nothing Sample.form_video Sample.booted =
      (Ok (Redirect (py "/")), w') /\
    exists m, flashed (events_since Sample.booted w') = [m].
Proof.
  eexists; split; [vm_compute; reflexivity|].
  destruct (download_one_message_per_redirect Sample.tool_nothing
              Sample.form_video Sample.booted _ _ eq_refl)
    as [[_ H] | [(file & name & H) _]]; [exact H | discriminate H].
Defined.

Lemma download_breaks_ties_by_directory_order_witness :
  url_rejected (form_url Sample.form_audio) = false /\
  mkdir (workdir_of Sample.tool_three_files Sample.booted) true true
    (snd (uuid4 Sample.tool_three_files Sample.booted))
    = (Ok tt, Sample.ready) /\
  glob_star (workdir_of Sample.tool_three_files Sample.booted)
    (snd (extract_info Sample.tool_three_files
            (ydl_opts_of (form_kind Sample.form_audio)
               (workdir_of Sample.tool_three_files Sample.booted))
            (form_url Sample.form_audio) (files Sample.ready))) <> [] /\
  exists before outfile after,
    glob_star Sample.workdir
      (files (snd (download Sample.tool_three_files Sample.form_audio
                     Sample.booted))) = before ++ outfile :: after /\
    served (events_since Sample.booted
              (snd (download Sample.tool_three_files Sample.form_audio
                      Sample.booted)))
      = [(path_str outfile, path_name outfile)].
Proof.
  assert (H1 : url_rejected (form_url Sample.form_audio) = false)
    by (vm_compute; reflexivity).
  assert (H2 : mkdir (workdir_of Sample.tool_three_files Sample.booted) true true
                 (snd (uuid4 Sample.tool_three_files Sample.booted))
               = (Ok tt, Sample.ready)) by (vm_compute; reflexivity).
  assert (H4 : glob_star (workdir_of Sample.tool_three_files Sample.booted)
                 (snd (extract_info Sample.tool_three_files
                         (ydl_opts_of (form_kind Sample.form_audio)
                            (workdir_of Sample.tool_three_files Sample.booted))
                         (form_url Sample.form_audio) (files Sample.ready)))
               <> []) by (vm_compute; discriminate).
  split; [exact H1|]; split; [exact H2|]; split; [exact H4|].
  destruct (download_breaks_ties_by_directory_order _ _ _ _ _ H1 H2 eq_refl H4)
    as (before & outfile & after & Hg & _ & _ & Hs & _).
  exists before, outfile, after; split; [exact Hg | exact Hs].
Defined.

Lemma download_prefers_existing_entries_witness :
  url_rejected (form_url Sample.form_video) = false /\
  mkdir (workdir_of Cases.tool_dangling Sample.booted) true true
    (snd (uuid4 Cases.tool_dangling Sample.booted)) = (Ok tt, Sample.ready) /\
  exists outfile,
    served (events_since Sample.booted
              (snd (download Cases.tool_dangling Sample.form_video Sample.booted)))
      = [(path_str outfile, path_name outfile)] /\
    20 <= stat_size outfile
            (files (snd (download Cases.tool_dangling Sample.form_video
                           Sample.booted))).
Proof.
  assert (H1 : url_rejected (form_url Sample.form_video) = false)
    by (vm_compute; reflexivity).
  assert (H2 : mkdir (workdir_of Cases.tool_dangling Sample.booted) true true
                 (snd (uuid4 Cases.tool_dangling Sample.booted))
               = (Ok tt, Sample.ready)) by (vm_compute; reflexivity).
  split; [exact H1|]; split; [exact H2|].
  destruct (download_prefers_existing_entries Cases.tool_dangling
              Sample.form_video Sample.booted Sample.ready _
              (path_div Sample.workdir (py "clip.mp4")) H1 H2 eq_refl)
    as (outfile & _ & Hs & _ & Hsz & _).
  - vm_compute; right; left; reflexivity.
  - vm_compute; reflexivity.
  - vm_compute; reflexivity.
  - exists outfile; split; [exact Hs | exact Hsz].
Defined.

Lemma cleanup_spares_other_workdirs_witness :
  Sample.uid_a <> Sample.uid_b /\
  lookup (path_div (path_div BASE_TEMP Sample.uid_b) (py "b.mp4"))
    (files (snd (cleanup_path Sample.workdir 30 Cases.two_requests))) =
  Some (Sample.regular 20).
Proof.
  assert (H1 : Sample.uid_a <> Sample.uid_b) by (vm_compute; discriminate).
  split; [exact H1|].
  rewrite (cleanup_spares_other_workdirs Sample.uid_a Sample.uid_b 30
             Cases.two_requests _ H1);
    [vm_compute; reflexivity | right; vm_compute; reflexivity].
Defined.

Lemma download_then_cleanup_restores_table_witness :
  wf_fs (files Sample.served_world) /\
  removable Sample.workdir (files Sample.served_world) /\
  prune Sample.workdir (files Sample.served_world) = files Sample.booted /\
  files (snd (cleanup_path Sample.workdir 30 Sample.served_world)) =
    files Sample.booted.
Proof.
  assert (H1 : url_rejected (form_url Sample.form_audio) = false)
    by (vm_compute; reflexivity).
  assert (H2 : mkdir (workdir_of Sample.tool_three_files Sample.booted) true true
                 (snd (uuid4 Sample.tool_three_files Sample.booted))
               = (Ok tt, Sample.ready)) by (vm_compute; reflexivity).
  assert (H3 : wf_fs (files Sample.served_world))
    by (apply wf_fsb_sound; vm_compute; reflexivity).
  assert (H4 : removable Sample.workdir (files Sample.served_world))
    by (apply removableb_sound; vm_compute; reflexivity).
  assert (H5 : prune Sample.workdir (files Sample.served_world)
               = files Sample.booted) by (vm_compute; reflexivity).
  split; [exact H3|]; split; [exact H4|]; split; [exact H5|].
  apply (download_then_cleanup_restores_table Sample.tool_three_files
           Sample.form_audio Sample.booted Sample.ready (Ok tt)
           (files Sample.served_world) H1 H2 eq_refl H3 H4 eq_refl H5).
  vm_compute; left; reflexivity.
Defined.
